(** * Recommendation agent: a shallow embedding of
      [src/services/strands/recommendation_agent.py]

    The file embeds the three functions of the module:
    - [analyze_historical_patterns], the pattern aggregator tool;
    - [get_best_practices], the best-practices lookup tool;
    - [lambda_handler], the request handler around the hosted agent.

    Python dictionaries keep insertion order, and the aggregator depends on
    that order (it sorts [dict.items()] with a stable sort), so dictionaries
    are association lists here.

    A severity is a Python number, an [int] of any size or a [float]
    (a binary64, Rocq's primitive [float]).  The built-in [sum] and the
    true division [/] of line 74 are the interpreter's: they are parameters
    of the aggregator, they return or raise, and reference instances are
    given for them.  The confidence of line 66 is the quotient of two
    counts; it is kept as an exact rational ([Q]). *)

From Stdlib Require Import List String Ascii Arith ZArith QArith Qminmax.
From Stdlib Require Import Lia Bool Sorted Permutation DecimalString.
From Stdlib Require Import Floats.
Import ListNotations.

Local Close Scope Q_scope.
Local Open Scope string_scope.
Local Open Scope list_scope.

(* ===================================================================== *)
(** ** Python dictionaries with insertion order                            *)
(* ===================================================================== *)

Definition dict (V : Type) : Type := list (string * V).

(** [d.get(k)]: [None] when the key is absent. *)
Fixpoint dict_get {V : Type} (k : string) (d : dict V) : option V :=
  match d with
  | [] => None
  | (k', v) :: r => if String.eqb k' k then Some v else dict_get k r
  end.

(** [k in d]. *)
Definition dict_mem {V : Type} (k : string) (d : dict V) : bool :=
  match dict_get k d with Some _ => true | None => false end.

(** The idiom [if k not in d: d[k] = init] followed by an in-place update
    [d[k] = f(d[k])]: an existing key keeps its position, a new key goes to
    the end. *)
Fixpoint dict_upd {V : Type} (k : string) (init : V) (f : V -> V)
         (d : dict V) : dict V :=
  match d with
  | [] => [(k, f init)]
  | (k', v) :: r =>
      if String.eqb k' k then (k', f v) :: r
      else (k', v) :: dict_upd k init f r
  end.

(** [x.get(field, default)] on a record field that may be absent. *)
Definition get_or {A : Type} (o : option A) (default : A) : A :=
  match o with Some v => v | None => default end.

(** [str(n)] for a non-negative integer. *)
Definition str_of_nat (n : nat) : string :=
  NilEmpty.string_of_uint (Nat.to_uint n).

(* ===================================================================== *)
(** ** Results and exceptions                                              *)
(* ===================================================================== *)

(** A raised Python exception: its class and [str(e)]. *)
Record exn : Type := mkExn { exn_class : string; exn_str : string }.

(** A computation that returns or raises. *)
Definition result (A : Type) : Type := (exn + A)%type.

Definition TypeError (msg : string) : exn := mkExn "TypeError" msg.
Definition KeyError (key : string) : exn :=
  mkExn "KeyError" ("'" ++ key ++ "'").
Definition AttributeError (msg : string) : exn := mkExn "AttributeError" msg.
Definition OverflowError (msg : string) : exn := mkExn "OverflowError" msg.
Definition ZeroDivisionError (msg : string) : exn :=
  mkExn "ZeroDivisionError" msg.

(** The lists a sequence of computations returns, put end to end, or the
    first exception raised. *)
Fixpoint collect {K X : Type} (f : K -> result (list X)) (keys : list K)
  : result (list X) :=
  match keys with
  | [] => inr []
  | k :: r =>
      match f k with
      | inl e => inl e
      | inr xs =>
          match collect f r with
          | inl e => inl e
          | inr ys => inr (xs ++ ys)
          end
      end
  end.

(* ===================================================================== *)
(** ** The pattern aggregator                                              *)
(* ===================================================================== *)

(** A Python number: an [int] or a [float]. *)
Inductive number : Type :=
| PyInt (n : Z)
| PyFloat (f : float).

(** A historical alert, restricted to the three fields the aggregator
    reads.  Each field may be absent from the record. *)
Record alert : Type := mkAlert {
  eventType : option string;
  effectiveActions : option (list string);
  severity : option number
}.

Record EffectiveAction : Type := mkEffectiveAction {
  ea_action : string;
  ea_eventType : string;
  frequency : nat;
  confidence : Q
}.

Record PatternSummary : Type := mkPatternSummary {
  ps_eventType : string;
  count : nat;
  averageSeverity : float;
  description : string
}.

Record analysis : Type := mkAnalysis {
  patterns : list PatternSummary;
  effective_actions : list EffectiveAction
}.

(** [alert.get("eventType", "unknown")] *)
Definition event_type_of (a : alert) : string :=
  get_or (eventType a) "unknown".

(** [alert.get("effectiveActions", [])] *)
Definition actions_of (a : alert) : list string :=
  get_or (effectiveActions a) [].

(** [a.get("severity", 0)] *)
Definition severity_of (a : alert) : number :=
  get_or (severity a) (PyInt 0).

(** Lines 41-44: one turn of the grouping loop. *)
Definition group_step (acc : dict (list alert)) (a : alert)
  : dict (list alert) :=
  dict_upd (event_type_of a) [] (fun l => l ++ [a]) acc.

(** Lines 39-44: group the alerts by type. *)
Definition alert_types (alerts : list alert) : dict (list alert) :=
  fold_left group_step alerts [].

(** Lines 55-57: one turn of the inner tally loop. *)
Definition count_step (acc : dict nat) (action : string) : dict nat :=
  dict_upd action 0 S acc.

(** Lines 52-57: tally the effective actions of one group. *)
Definition actions_count (type_alerts : list alert) : dict nat :=
  fold_left (fun acc a => fold_left count_step (actions_of a) acc)
            type_alerts [].

(** [sorted(items, key=lambda x: x[1], reverse=True)].  Python's sort is
    stable, also under [reverse=True]; the result of a stable sort is fixed
    by the input order and the keys, so a stable insertion sort computes
    it. *)
Fixpoint insert_desc (x : string * nat) (l : list (string * nat))
  : list (string * nat) :=
  match l with
  | [] => [x]
  | y :: r =>
      if (snd x <? snd y)%nat then y :: insert_desc x r else x :: y :: r
  end.

Fixpoint sorted_desc (l : list (string * nat)) : list (string * nat) :=
  match l with
  | [] => []
  | x :: r => insert_desc x (sorted_desc r)
  end.

(** Line 60. *)
Definition top_actions (type_alerts : list alert) : list (string * nat) :=
  sorted_desc (actions_count type_alerts).

(** [n / m] on two counts: true division. *)
Definition ratio (n m : nat) : Q :=
  (inject_Z (Z.of_nat n) / inject_Z (Z.of_nat m))%Q.

(** Lines 62-67: the entry built from one (action, count) pair of a group
    of [size] alerts. *)
Definition effective_action (event_type : string) (size : nat)
           (ac : string * nat) : EffectiveAction :=
  {| ea_action := fst ac;
     ea_eventType := event_type;
     frequency := snd ac;
     confidence := Qmin (ratio (snd ac) size) (95 # 100) |}.

(** Lines 61-67: the entries one group appends to [effective_actions]. *)
Definition group_actions (event_type : string) (type_alerts : list alert)
  : list EffectiveAction :=
  map (effective_action event_type (List.length type_alerts))
      (firstn 3 (top_actions type_alerts)).

(** Lines 71-76: the summary of a group, for the average found. *)
Definition pattern_summary (event_type : string) (size : nat)
           (average : float) : PatternSummary :=
  {| ps_eventType := event_type;
     count := size;
     averageSeverity := average;
     description :=
       "Pattern of " ++ event_type ++ " alerts identified with "
         ++ str_of_nat size ++ " occurrences" |}.

Section Aggregator.

(** The built-in [sum] over a sequence of numbers (with its start value, the
    integer 0), and [x / n] for a number [x] and the integer [n]: both
    return or raise.  The quotient of Python numbers is a [float]. *)
Variable py_sum : list number -> result number.
Variable py_truediv : number -> nat -> result float.

(** Line 74:
    [sum(a.get("severity", 0) for a in type_alerts) / len(type_alerts)] *)
Definition average_severity (type_alerts : list alert) : result float :=
  match py_sum (map severity_of type_alerts) with
  | inl e => inl e
  | inr total => py_truediv total (List.length type_alerts)
  end.

(** Lines 70-76: the entries one group appends to [patterns], unless the
    average raises. *)
Definition group_patterns (event_type : string) (type_alerts : list alert)
  : result (list PatternSummary) :=
  if (3 <=? List.length type_alerts)%nat then
    match average_severity type_alerts with
    | inl e => inl e
    | inr average =>
        inr [ pattern_summary event_type (List.length type_alerts) average ]
    end
  else inr [].

(** Lines 50-76: one turn of the loop over [alert_types.items()].  The
    effective actions are appended first; an exception of line 74 leaves
    the loop and the function. *)
Definition analyze_step (acc : analysis) (g : string * list alert)
  : result analysis :=
  let effective := effective_actions acc ++ group_actions (fst g) (snd g) in
  match group_patterns (fst g) (snd g) with
  | inl e => inl e
  | inr summaries =>
      inr {| patterns := patterns acc ++ summaries;
             effective_actions := effective |}
  end.

(** Lines 47-76: the loop, from the lists built so far. *)
Fixpoint analyze_loop (groups : dict (list alert)) (acc : analysis)
  : result analysis :=
  match groups with
  | [] => inr acc
  | g :: rest =>
      match analyze_step acc g with
      | inl e => inl e
      | inr acc' => analyze_loop rest acc'
      end
  end.

Definition analyze_groups (groups : dict (list alert)) : result analysis :=
  analyze_loop groups {| patterns := []; effective_actions := [] |}.

(** The tool itself.  The argument is [None] when the caller passes no list
    ([not alerts] is true of [None] and of the empty list). *)
Definition analyze_historical_patterns (alerts : option (list alert))
  : result analysis :=
  match alerts with
  | None => inr {| patterns := []; effective_actions := [] |}
  | Some [] => inr {| patterns := []; effective_actions := [] |}
  | Some l => analyze_groups (alert_types l)
  end.

End Aggregator.

(** *** Vocabulary of the specification *)

(** What the specification reads in a record: its event type, the literal
    "unknown" when the record has none; its effective actions, none when
    the field is missing; its severity, the integer 0 when the field is
    missing. *)
Definition record_type (a : alert) : string :=
  match eventType a with Some t => t | None => "unknown" end.

Definition record_actions (a : alert) : list string :=
  match effectiveActions a with Some l => l | None => [] end.

Definition record_severity (a : alert) : number :=
  match severity a with Some s => s | None => PyInt 0 end.

(** The records of one event type, in input order. *)
Definition partition_of (t : string) (alerts : list alert) : list alert :=
  filter (fun a => String.eqb (record_type a) t) alerts.

(** Every action string of a partition, in the order the tally meets
    them. *)
Definition encounter (t : string) (alerts : list alert) : list string :=
  flat_map record_actions (partition_of t alerts).

(** Number of occurrences of an action in a partition. *)
Definition tally (t : string) (alerts : list alert) (action : string) : nat :=
  count_occ string_dec (encounter t alerts) action.

(** Position of the first occurrence of [x] in [l] ([length l] when there
    is none). *)
Fixpoint first_index (x : string) (l : list string) : nat :=
  match l with
  | [] => 0
  | y :: r => if String.eqb y x then 0 else S (first_index x r)
  end.


(** [rank enc x y]: the tallied pair [x] is ahead of [y], for the order of
    encounter [enc]. *)
Definition rank (enc : list string) (x y : string * nat) : Prop :=
  snd y < snd x \/
  (snd x = snd y /\ first_index (fst x) enc < first_index (fst y) enc).

(** [tally_ok enc d]: the dictionary [d] is the tally of the sequence
    [enc]: one key per distinct string, in order of first occurrence, with
    its number of occurrences. *)
Definition tally_ok (enc : list string) (d : dict nat) : Prop :=
  NoDup (map fst d) /\
  (forall a n, In (a, n) d -> In a enc /\ n = count_occ string_dec enc a) /\
  (forall a, In a enc -> In a (map fst d)) /\
  StronglySorted (fun a b => first_index a enc < first_index b enc)
                 (map fst d).

Section Mean.

Variable py_sum : list number -> result number.
Variable py_truediv : number -> nat -> result float.

(** The mean of a sequence of numbers as Python computes it: the sum of
    the numbers, in their order, divided by how many they are. *)
Definition python_mean (l : list number) : result float :=
  match py_sum l with
  | inl e => inl e
  | inr total => py_truediv total (List.length l)
  end.

(** [mean_raises alerts e]: the mean of the severities (0 for a record
    without one) of some partition of three records or more raises [e]. *)
Definition mean_raises (alerts : list alert) (e : exn) : Prop :=
  exists t,
    3 <= List.length (partition_of t alerts) /\
    python_mean (map record_severity (partition_of t alerts)) = inl e.

End Mean.

(** The entries of the output that belong to one event type. *)
Definition emitted_actions (t : string) (out : analysis)
  : list EffectiveAction :=
  filter (fun e => String.eqb (ea_eventType e) t) (effective_actions out).

Definition emitted_patterns (t : string) (out : analysis)
  : list PatternSummary :=
  filter (fun p => String.eqb (ps_eventType p) t) (patterns out).

(** The distinct strings of a list, in order of first occurrence. *)
Fixpoint first_seen (l : list string) : list string :=
  match l with
  | [] => []
  | x :: r => x :: filter (fun y => negb (String.eqb y x)) (first_seen r)
  end.

(** The event types of the input, in order of first appearance. *)
Definition event_types (alerts : list alert) : list string :=
  first_seen (map record_type alerts).

(* ===================================================================== *)
(** ** The best-practices lookup                                           *)
(* ===================================================================== *)

Definition weather_hurricane : list string :=
  [ "Evacuate if directed by local authorities";
    "Secure outdoor objects that could become projectiles";
    "Prepare emergency supplies including food, water, and medications";
    "Stay away from windows during the storm";
    "Monitor NOAA Weather Radio for updates" ].

Definition weather_tornado : list string :=
  [ "Move to an interior room on the lowest floor";
    "Stay away from windows";
    "Cover your head and neck";
    "Monitor local weather alerts";
    "Have emergency supplies ready" ].

Definition weather_flood : list string :=
  [ "Move to higher ground immediately";
    "Do not walk, swim, or drive through flood waters";
    "Stay off bridges over fast-moving water";
    "Evacuate if told to do so";
    "Prepare emergency supplies" ].

Definition weather_default : list string :=
  [ "Stay informed through official weather channels";
    "Prepare emergency supplies";
    "Follow evacuation orders if issued";
    "Secure your property if time allows";
    "Have a communication plan with family members" ].

Definition earthquake_default : list string :=
  [ "Drop, cover, and hold on";
    "If indoors, stay away from windows and exterior walls";
    "If outdoors, move to an open area away from buildings and power lines";
    "Be prepared for aftershocks";
    "Check for injuries and damage after shaking stops";
    "Listen to emergency radio for instructions" ].

Definition health_epidemic : list string :=
  [ "Follow public health guidelines";
    "Practice good hygiene including frequent handwashing";
    "Maintain social distancing as recommended";
    "Wear appropriate protective equipment if advised";
    "Stay home if you develop symptoms";
    "Seek medical attention if symptoms worsen" ].

Definition health_default : list string :=
  [ "Follow guidance from health authorities";
    "Maintain proper hygiene practices";
    "Stay informed through official health channels";
    "Prepare necessary medications and supplies";
    "Have emergency contacts readily available" ].

Definition security_default : list string :=
  [ "Follow instructions from authorities";
    "Avoid the affected area";
    "Report suspicious activity to authorities";
    "Stay informed through official channels";
    "Have an emergency plan and supplies ready" ].

Definition global_default : list string :=
  [ "Stay informed through official channels";
    "Follow instructions from authorities";
    "Have emergency supplies ready";
    "Develop and practice an emergency plan";
    "Help neighbors who may need assistance" ].

(** A value stored in the [best_practices] dictionary: the four event types
    map to a dictionary of sub-types, the key ["default"] maps to a list of
    strings. *)
Inductive practices : Type :=
| SubTypes (d : dict (list string))
| Practices (l : list string).

(** Lines 97-171. *)
Definition best_practices : dict practices :=
  [ ("weather", SubTypes [ ("hurricane", weather_hurricane);
                           ("tornado", weather_tornado);
                           ("flood", weather_flood);
                           ("default", weather_default) ]);
    ("earthquake", SubTypes [ ("default", earthquake_default) ]);
    ("health", SubTypes [ ("epidemic", health_epidemic);
                          ("default", health_default) ]);
    ("security", SubTypes [ ("default", security_default) ]);
    ("default", Practices global_default) ].

(** [k in v]: key membership for a dictionary, element membership for a
    list. *)
Definition py_contains (k : string) (v : practices) : bool :=
  match v with
  | SubTypes d => dict_mem k d
  | Practices l => existsb (String.eqb k) l
  end.

(** [v[k]] with a string subscript: a dictionary raises [KeyError] on an
    absent key, a list raises [TypeError]. *)
Definition py_subscript (v : practices) (k : string) : result practices :=
  match v with
  | SubTypes d =>
      match dict_get k d with
      | Some l => inr (Practices l)
      | None => inl (KeyError k)
      end
  | Practices _ =>
      inl (TypeError "list indices must be integers or slices, not str")
  end.

(** [d[k]] on the outer dictionary. *)
Definition table_subscript (d : dict practices) (k : string)
  : result practices :=
  match dict_get k d with
  | Some v => inr v
  | None => inl (KeyError k)
  end.

(** Truth value of an optional string: [None] and the empty string are
    false. *)
Definition str_truthy (s : option string) : bool :=
  match s with
  | None => false
  | Some EmptyString => false
  | Some _ => true
  end.

Section BestPractices.

(** [str.lower()], a built-in of the language: taken as a parameter. *)
Variable lower : string -> string.

(** Lines 173-182. *)
Definition get_best_practices (event_type : string)
           (sub_type : option string) : result practices :=
  if dict_mem (lower event_type) best_practices then
    match table_subscript best_practices (lower event_type) with
    | inl e => inl e
    | inr type_practices =>
        if str_truthy sub_type
           && py_contains (lower (get_or sub_type EmptyString))
                          type_practices
        then py_subscript type_practices
                          (lower (get_or sub_type EmptyString))
        else if py_contains "default" type_practices
        then py_subscript type_practices "default"
        else table_subscript best_practices "default"
    end
  else table_subscript best_practices "default".

End BestPractices.

(** *** Vocabulary of the specification *)

(** The eight (event type, sub-type) entries of the table. *)
Definition table_entry (event_type sub_type : string)
  : option (list string) :=
  if String.eqb event_type "weather" then
    if String.eqb sub_type "hurricane" then Some weather_hurricane
    else if String.eqb sub_type "tornado" then Some weather_tornado
    else if String.eqb sub_type "flood" then Some weather_flood
    else if String.eqb sub_type "default" then Some weather_default
    else None
  else if String.eqb event_type "earthquake" then
    if String.eqb sub_type "default" then Some earthquake_default else None
  else if String.eqb event_type "health" then
    if String.eqb sub_type "epidemic" then Some health_epidemic
    else if String.eqb sub_type "default" then Some health_default
    else None
  else if String.eqb event_type "security" then
    if String.eqb sub_type "default" then Some security_default else None
  else None.

(** The resolution order of the specification, on keys already put in
    lower case: the (event type, sub-type) entry, else the
    (event type, "default") entry, else the global default list. *)
Definition resolve (event_type : string) (sub_type : option string)
  : list string :=
  match
    match sub_type with
    | Some st => table_entry event_type st
    | None => None
    end
  with
  | Some l => l
  | None =>
      match table_entry event_type "default" with
      | Some l => l
      | None => global_default
      end
  end.

Definition is_upper (c : ascii) : bool :=
  let n := nat_of_ascii c in ((65 <=? n) && (n <=? 90))%nat.

Definition is_ascii (c : ascii) : bool :=
  (nat_of_ascii c <? 128)%nat.

(** [lower] restricted to ASCII text: letters A-Z move to a-z, every other
    character stays. *)
Definition ascii_lower_char (c : ascii) : ascii :=
  if is_upper c then ascii_of_nat (nat_of_ascii c + 32) else c.

Fixpoint ascii_lower (s : string) : string :=
  match s with
  | EmptyString => EmptyString
  | String c r => String (ascii_lower_char c) (ascii_lower r)
  end.

Fixpoint string_forallb (p : ascii -> bool) (s : string) : bool :=
  match s with
  | EmptyString => true
  | String c r => p c && string_forallb p r
  end.

(** The nine lists of the table. *)
Definition all_practices : list (list string) :=
  [ weather_hurricane; weather_tornado; weather_flood; weather_default;
    earthquake_default; health_epidemic; health_default; security_default;
    global_default ].

(* ===================================================================== *)
(** ** JSON values and the Python operations the handler applies to them   *)
(* ===================================================================== *)

(** The values [json.loads] produces.  A float is carried by its [repr],
    the literal both [str] and [json.dumps] print for it. *)
#[warnings="-register-all"]
Inductive json : Type :=
| JNull
| JBool (b : bool)
| JInt (n : Z)
| JFloat (repr : string)
| JStr (s : string)
| JArr (l : list json)
| JObj (d : list (string * json)).

(** [bool(v)] *)
Definition py_truthy (v : json) : bool :=
  match v with
  | JNull => false
  | JBool b => b
  | JInt n => negb (Z.eqb n 0)
  | JFloat r => negb (String.eqb r "0.0" || String.eqb r "-0.0")
  | JStr s => negb (String.eqb s EmptyString)
  | JArr l => match l with [] => false | _ => true end
  | JObj d => match d with [] => false | _ => true end
  end.

(** [type(v).__name__] *)
Definition py_type_name (v : json) : string :=
  match v with
  | JNull => "NoneType"
  | JBool _ => "bool"
  | JInt _ => "int"
  | JFloat _ => "float"
  | JStr _ => "str"
  | JArr _ => "list"
  | JObj _ => "dict"
  end.

(** [v.get(k, default)]: only a dictionary has the method. *)
Definition py_get (v : json) (k : string) (default : json) : result json :=
  match v with
  | JObj d => inr (get_or (dict_get k d) default)
  | _ => inl (AttributeError
                ("'" ++ py_type_name v ++ "' object has no attribute 'get'"))
  end.

(** [v != s] for a string literal [s]. *)
Definition py_ne_str (v : json) (s : string) : bool :=
  match v with
  | JStr s' => negb (String.eqb s' s)
  | _ => true
  end.

Definition str_of_Z (n : Z) : string :=
  NilEmpty.string_of_int (Z.to_int n).

(** [s.find(c)] and [s.rfind(c)] for a one-character needle: the index of
    the first (last) occurrence, [-1] when there is none.  Indices count the
    characters of the model's strings; the handler only compares them and
    slices with them, and the needles are ASCII. *)
Fixpoint str_find (c : ascii) (s : string) : Z :=
  match s with
  | EmptyString => (-1)%Z
  | String c' r =>
      if Ascii.eqb c' c then 0%Z
      else let i := str_find c r in
           if (i <? 0)%Z then (-1)%Z else (i + 1)%Z
  end.

Fixpoint str_rfind (c : ascii) (s : string) : Z :=
  match s with
  | EmptyString => (-1)%Z
  | String c' r =>
      let i := str_rfind c r in
      if (0 <=? i)%Z then (i + 1)%Z
      else if Ascii.eqb c' c then 0%Z else (-1)%Z
  end.

(** [s[a:b]] for [0 <= a]. *)
Definition slice (s : string) (a b : Z) : string :=
  substring (Z.to_nat a) (Z.to_nat (b - a)) s.

Definition dq : string := String (ascii_of_nat 34) EmptyString.
Definition nl : string := String (ascii_of_nat 10) EmptyString.

(** Lines 284-288: the text handed to [json.loads], when the reply has an
    opening brace and a closing brace after it. *)
Definition embedded_json (message_text : string) : option string :=
  let json_start := str_find "{"%char message_text in
  let json_end := (str_rfind "}"%char message_text + 1)%Z in
  if (json_start >=? 0)%Z && (json_end >? json_start)%Z
  then Some (slice message_text json_start json_end)
  else None.

(** [occurs c s]: the character occurs in the string. *)
Definition occurs (c : ascii) (s : string) : Prop :=
  In c (list_ascii_of_string s).

(** The exception [v.get] raises on a value that is not a dictionary. *)
Definition no_get (v : json) : exn :=
  AttributeError ("'" ++ py_type_name v ++ "' object has no attribute 'get'").

Definition is_dict (v : json) : bool :=
  match v with JObj _ => true | _ => false end.

(** The seven values the prompt reads from the current alert (lines
    253-259), each with its default. *)
Definition prompt_fields (a : dict json) : list json :=
  [ get_or (dict_get "eventType" a) JNull;
    get_or (dict_get "subType" a) (JStr "N/A");
    get_or (dict_get "severity" a) (JStr "Unknown");
    get_or (dict_get "headline" a) (JStr "N/A");
    get_or (dict_get "description" a) (JStr "N/A");
    get_or (dict_get "location" a) (JObj []);
    get_or (dict_get "affectedAreas" a) (JArr []) ].

(* ===================================================================== *)
(** ** The handler                                                         *)
(* ===================================================================== *)

Record response : Type := mkResponse { statusCode : Z; body : string }.

(** What a run of the handler leaves behind besides its return value: the
    records sent to the logger and the prompts sent to the agent. *)
Record trace : Type := mkTrace {
  logged : list (string * string);
  agent_calls : list string
}.

Definition empty_trace : trace := {| logged := []; agent_calls := [] |}.

(** Computations of the handler: they read and extend the trace, and
    return or raise.  The trace survives an exception. *)
Definition M (A : Type) : Type := trace -> result A * trace.

Definition ret {A : Type} (x : A) : M A := fun t => (inr x, t).

Definition bind {A B : Type} (m : M A) (k : A -> M B) : M B :=
  fun t =>
    match m t with
    | (inl e, t') => (inl e, t')
    | (inr x, t') => k x t'
    end.

Definition lift {A : Type} (r : result A) : M A := fun t => (r, t).

Definition log (level msg : string) : M unit :=
  fun t => (inr tt, {| logged := logged t ++ [(level, msg)];
                       agent_calls := agent_calls t |}).

(** [try: m except Exception as e: h(e)] *)
Definition try_except {A : Type} (m : M A) (h : exn -> M A) : M A :=
  fun t =>
    match m t with
    | (inl e, t') => h e t'
    | (inr x, t') => (inr x, t')
    end.

Declare Scope handler_scope.
Delimit Scope handler_scope with handler.
Notation "x <- m ;; k" := (bind m (fun x => k))
  (at level 61, m at next level, right associativity) : handler_scope.
Notation "m ;; k" := (bind m (fun _ => k))
  (at level 61, right associativity) : handler_scope.

(** Lines 292-302: the fixed recommendation. *)
Definition fallback_recommendation : json :=
  JObj [ ("recommendations",
          JObj [ ("general",
                  JArr [ JStr "Stay informed through official channels";
                         JStr "Follow instructions from authorities" ]);
                 ("specific", JArr []) ]);
         ("priorityLevel", JStr "medium");
         ("timeframe", JStr "immediate");
         ("confidenceScore", JFloat "0.5");
         ("sources", JArr [ JStr "System generated recommendations" ]) ].

Definition indent : string := "        ".

Definition line (s : string) : string := indent ++ s ++ nl.

Section Handler.

(** The hosted agent: given the prompt, it returns the text of its reply
    or raises. *)
Variable agent : string -> result string.

(** [json.loads] and [json.dumps] of the standard library, and [repr] on
    lists and dictionaries. *)
Variable json_loads : string -> result json.
Variable json_dumps : json -> string.
Variable py_repr : json -> string.

(** [str(v)], as an f-string formats a value. *)
Definition py_str (v : json) : string :=
  match v with
  | JNull => "None"
  | JBool true => "True"
  | JBool false => "False"
  | JInt n => str_of_Z n
  | JFloat r => r
  | JStr s => s
  | _ => py_repr v
  end.

Definition call_agent (prompt : string) : M string :=
  fun t => (agent prompt,
            {| logged := logged t;
               agent_calls := agent_calls t ++ [prompt] |}).

Local Open Scope handler_scope.

(** Lines 249-277: the f-string. *)
Definition build_prompt (current_alert : json) : M string :=
  event_type <- lift (py_get current_alert "eventType" JNull) ;;
  sub_type <- lift (py_get current_alert "subType" (JStr "N/A")) ;;
  sev <- lift (py_get current_alert "severity" (JStr "Unknown")) ;;
  headline <- lift (py_get current_alert "headline" (JStr "N/A")) ;;
  descr <- lift (py_get current_alert "description" (JStr "N/A")) ;;
  location <- lift (py_get current_alert "location" (JObj [])) ;;
  areas <- lift (py_get current_alert "affectedAreas" (JArr [])) ;;
  ret (nl
    ++ line "Generate recommendations for the following alert:"
    ++ line EmptyString
    ++ line "ALERT DETAILS:"
    ++ line ("Type: " ++ py_str event_type)
    ++ line ("Sub-type: " ++ py_str sub_type)
    ++ line ("Severity: " ++ py_str sev)
    ++ line ("Headline: " ++ py_str headline)
    ++ line ("Description: " ++ py_str descr)
    ++ line ("Location: " ++ json_dumps location)
    ++ line ("Affected Areas: " ++ json_dumps areas)
    ++ line EmptyString
    ++ line "Based on the alert details, historical data, and best practices:"
    ++ line "1. Analyze historical patterns from similar alerts"
    ++ line "2. Identify best practices for this type of event"
    ++ line "3. Generate specific recommendations for this situation"
    ++ line EmptyString
    ++ line "Format your response as a JSON object with the following structure:"
    ++ line "{"
    ++ line ("    " ++ dq ++ "recommendations" ++ dq ++ ": {")
    ++ line ("        " ++ dq ++ "general" ++ dq ++ ": [" ++ dq
               ++ "List of general recommendations" ++ dq ++ "],")
    ++ line ("        " ++ dq ++ "specific" ++ dq ++ ": [" ++ dq
               ++ "List of specific actions tailored to this alert"
               ++ dq ++ "]")
    ++ line "    },"
    ++ line ("    " ++ dq ++ "priorityLevel" ++ dq ++ ": " ++ dq
               ++ "high|medium|low" ++ dq ++ ",")
    ++ line ("    " ++ dq ++ "timeframe" ++ dq ++ ": " ++ dq
               ++ "immediate|short-term|long-term" ++ dq ++ ",")
    ++ line ("    " ++ dq ++ "confidenceScore" ++ dq ++ ": 0.0-1.0,")
    ++ line ("    " ++ dq ++ "sources" ++ dq ++ ": [" ++ dq
               ++ "List of sources or justifications" ++ dq ++ "]")
    ++ line "}"
    ++ indent)%string.

Definition error_body (msg : string) : string :=
  json_dumps (JObj [ ("error", JStr msg) ]).

(** Lines 283-302: the recommendation read from the agent's reply. *)
Definition extract_recommendations (message_text : string) : M json :=
  let json_start := str_find "{"%char message_text in
  let json_end := (str_rfind "}"%char message_text + 1)%Z in
  if (json_start >=? 0)%Z && (json_end >? json_start)%Z then
    lift (json_loads (slice message_text json_start json_end))
  else
    ret fallback_recommendation.

(** Lines 248-307: prompt, agent call and success response, once the
    request is validated. *)
Definition recommend (current_alert : json) : M response :=
  prompt <- build_prompt current_alert ;;
  message_text <- call_agent prompt ;;
  recommendations <- extract_recommendations message_text ;;
  ret {| statusCode := 200; body := json_dumps recommendations |}.

(** Lines 222-307: the body of the [try]. *)
Definition handler_body (event : json) : M response :=
  log "INFO" ("Received event: " ++ json_dumps event) ;;
  action <- lift (py_get event "action" JNull) ;;
  if py_ne_str action "generateRecommendations" then
    ret {| statusCode := 400;
           body := error_body ("Unsupported action: " ++ py_str action) |}
  else
    context_data <- lift (py_get event "context" (JObj [])) ;;
    current_alert <- lift (py_get context_data "currentAlert" (JObj [])) ;;
    historical_alerts <-
      lift (py_get context_data "historicalAlerts" (JArr [])) ;;
    if negb (py_truthy current_alert) then
      ret {| statusCode := 400;
             body := error_body "Current alert data is required" |}
    else
      recommend current_alert.

(** Lines 309-316: the [except] clause. *)
Definition handler_except (e : exn) : M response :=
  log "ERROR" ("Error generating recommendations: " ++ exn_str e) ;;
  ret {| statusCode := 500;
         body := error_body
                   ("Failed to generate recommendations: " ++ exn_str e) |}.

(** A run of the handler on a fresh trace: the response returned and the
    trace left. *)
Definition lambda_handler (event : json) : result response * trace :=
  try_except (handler_body event) handler_except empty_trace.

(** *** Vocabulary of the specification *)

(** The trace of a run that logged the event and never called the
    agent. *)
Definition received (event : json) : trace :=
  {| logged := [("INFO", ("Received event: " ++ json_dumps event)%string)];
     agent_calls := [] |}.

(** The client-error and server-error responses. *)
Definition bad_request (msg : string) : response :=
  {| statusCode := 400; body := error_body msg |}.

Definition server_error (e : exn) : response :=
  {| statusCode := 500;
     body := error_body
               ("Failed to generate recommendations: " ++ exn_str e) |}.

(** What the handler returns, and the prompts it sends, once a request
    with the current alert [current_alert] is validated. *)
Definition recommend_result (current_alert : json) : result response :=
  fst (try_except (recommend current_alert) handler_except empty_trace).

Definition recommend_calls (current_alert : json) : list string :=
  agent_calls
    (snd (try_except (recommend current_alert) handler_except empty_trace)).

(** The prompt built for a current alert that is a dictionary. *)
Definition prompt_for (a : dict json) : string :=
  match fst (build_prompt (JObj a) empty_trace) with
  | inr p => p
  | inl _ => EmptyString
  end.

End Handler.

(** The one action the handler supports. *)
Definition action_name : string := "generateRecommendations".

Section Traces.

Variable json_dumps : json -> string.

(** The trace of a run that ended in the [except] clause, after the calls
    [calls]. *)
Definition failed (event : json) (e : exn) (calls : list string) : trace :=
  {| logged := [("INFO", ("Received event: " ++ json_dumps event)%string);
                ("ERROR",
                 ("Error generating recommendations: " ++ exn_str e)%string)];
     agent_calls := calls |}.

(** The trace of a run that sent [prompt] to the agent and returned. *)
Definition answered (event : json) (prompt : string) : trace :=
  {| logged := [("INFO", ("Received event: " ++ json_dumps event)%string)];
     agent_calls := [prompt] |}.

End Traces.

(* ===================================================================== *)
(** ** Reference instances of the library functions                        *)
(* ===================================================================== *)

(** The handler is parametric in [json.loads], [json.dumps], [repr] and
    [str.lower].  The instances below run it on concrete events.  They follow
    the library on printable ASCII text.  Where they depart from it: bytes
    above 127 are copied as they are, a float literal is kept as written,
    a pair of surrogate escapes is not joined, and the decoder raises with
    a short message where the library's message names the failure and its
    line and column. *)

(** A backslash. *)
Definition bs : string := String (ascii_of_nat 92) EmptyString.

Definition hex_digit (n : nat) : ascii :=
  if (n <? 10)%nat then ascii_of_nat (48 + n) else ascii_of_nat (87 + n).

(** A backslash, [u] and four hexadecimal digits, for a character below
    256. *)
Definition u_escape (c : ascii) : string :=
  let n := nat_of_ascii c in
  bs ++ "u00" ++ String (hex_digit (n / 16))
                        (String (hex_digit (n mod 16)) EmptyString).

Definition dumps_char (c : ascii) : string :=
  let n := nat_of_ascii c in
  if (n =? 34)%nat then bs ++ dq
  else if (n =? 92)%nat then bs ++ bs
  else if (n =? 10)%nat then bs ++ "n"
  else if (n =? 13)%nat then bs ++ "r"
  else if (n =? 9)%nat then bs ++ "t"
  else if (n =? 8)%nat then bs ++ "b"
  else if (n =? 12)%nat then bs ++ "f"
  else if (n <? 32)%nat || (n =? 127)%nat then u_escape c
  else String c EmptyString.

Fixpoint dumps_chars (s : string) : string :=
  match s with
  | EmptyString => EmptyString
  | String c r => dumps_char c ++ dumps_chars r
  end.

Definition dumps_str (s : string) : string := dq ++ dumps_chars s ++ dq.

Fixpoint json_dumps_ref (v : json) : string :=
  match v with
  | JNull => "null"
  | JBool true => "true"
  | JBool false => "false"
  | JInt n => str_of_Z n
  | JFloat r => r
  | JStr s => dumps_str s
  | JArr l =>
      ("[" ++ (fix items (l : list json) : string :=
                match l with
                | [] => EmptyString
                | [x] => json_dumps_ref x
                | x :: r => json_dumps_ref x ++ ", " ++ items r
                end) l ++ "]")%string
  | JObj d =>
      ("{" ++ (fix items (d : list (string * json)) : string :=
                match d with
                | [] => EmptyString
                | [(k, x)] => dumps_str k ++ ": " ++ json_dumps_ref x
                | (k, x) :: r =>
                    dumps_str k ++ ": " ++ json_dumps_ref x ++ ", " ++ items r
                end) d ++ "}")%string
  end.

Fixpoint string_existsb (p : ascii -> bool) (s : string) : bool :=
  match s with
  | EmptyString => false
  | String c r => p c || string_existsb p r
  end.

Definition x_escape (c : ascii) : string :=
  let n := nat_of_ascii c in
  bs ++ "x" ++ String (hex_digit (n / 16))
                      (String (hex_digit (n mod 16)) EmptyString).

Definition repr_char (quote : ascii) (c : ascii) : string :=
  let n := nat_of_ascii c in
  if Ascii.eqb c quote then bs ++ String c EmptyString
  else if (n =? 92)%nat then bs ++ bs
  else if (n =? 10)%nat then bs ++ "n"
  else if (n =? 13)%nat then bs ++ "r"
  else if (n =? 9)%nat then bs ++ "t"
  else if (n <? 32)%nat || (n =? 127)%nat then x_escape c
  else String c EmptyString.

Fixpoint repr_chars (quote : ascii) (s : string) : string :=
  match s with
  | EmptyString => EmptyString
  | String c r => repr_char quote c ++ repr_chars quote r
  end.

(** [repr] of a string: single quotes, unless the text has a single quote
    and no double quote. *)
Definition repr_str (s : string) : string :=
  let quote :=
    if string_existsb (Ascii.eqb "'"%char) s
       && negb (string_existsb (Ascii.eqb (ascii_of_nat 34)) s)
    then ascii_of_nat 34 else "'"%char in
  String quote (repr_chars quote s ++ String quote EmptyString).

Fixpoint py_repr_ref (v : json) : string :=
  match v with
  | JNull => "None"
  | JBool true => "True"
  | JBool false => "False"
  | JInt n => str_of_Z n
  | JFloat r => r
  | JStr s => repr_str s
  | JArr l =>
      ("[" ++ (fix items (l : list json) : string :=
                match l with
                | [] => EmptyString
                | [x] => py_repr_ref x
                | x :: r => py_repr_ref x ++ ", " ++ items r
                end) l ++ "]")%string
  | JObj d =>
      ("{" ++ (fix items (d : list (string * json)) : string :=
                match d with
                | [] => EmptyString
                | [(k, x)] => repr_str k ++ ": " ++ py_repr_ref x
                | (k, x) :: r =>
                    repr_str k ++ ": " ++ py_repr_ref x ++ ", " ++ items r
                end) d ++ "}")%string
  end.

Definition JSONDecodeError (msg : string) : exn :=
  mkExn "JSONDecodeError" msg.

Definition is_ws (c : ascii) : bool :=
  let n := nat_of_ascii c in
  ((n =? 32) || (n =? 9) || (n =? 10) || (n =? 13))%nat.

Fixpoint skip_ws (s : string) : string :=
  match s with
  | String c r => if is_ws c then skip_ws r else s
  | EmptyString => s
  end.

Definition is_digit (c : ascii) : bool :=
  let n := nat_of_ascii c in ((48 <=? n) && (n <=? 57))%nat.

(** The longest prefix of digits, and what follows it. *)
Fixpoint span_digits (s : string) : string * string :=
  match s with
  | String c r =>
      if is_digit c then
        let (ds, rest) := span_digits r in (String c ds, rest)
      else (EmptyString, s)
  | EmptyString => (EmptyString, s)
  end.

Fixpoint Z_of_digits (acc : Z) (s : string) : Z :=
  match s with
  | String c r => Z_of_digits (10 * acc + Z.of_nat (nat_of_ascii c - 48)) r
  | EmptyString => acc
  end.

(** [strip_prefix p s]: the rest of [s] after the prefix [p]. *)
Fixpoint strip_prefix (p s : string) : option string :=
  match p, s with
  | EmptyString, _ => Some s
  | String a p', String b s' =>
      if Ascii.eqb a b then strip_prefix p' s' else None
  | String _ _, EmptyString => None
  end.

(** The integer part [0|[1-9][0-9]*]. *)
Definition span_int (s : string) : option (string * string) :=
  match s with
  | String c r =>
      if Ascii.eqb c "0"%char then Some ("0", r)
      else if is_digit c then Some (span_digits s)
      else None
  | EmptyString => None
  end.

(** The optional fraction [.[0-9]+]. *)
Definition span_frac (s : string) : string * string :=
  match s with
  | String "."%char r =>
      match span_digits r with
      | (EmptyString, _) => (EmptyString, s)
      | (ds, rest) => (String "."%char ds, rest)
      end
  | _ => (EmptyString, s)
  end.

(** The optional exponent [[eE][-+]?[0-9]+]. *)
Definition span_exp (s : string) : string * string :=
  match s with
  | String e r =>
      if Ascii.eqb e "e"%char || Ascii.eqb e "E"%char then
        let (sign, r') :=
          match r with
          | String g r1 =>
              if Ascii.eqb g "-"%char || Ascii.eqb g "+"%char
              then (String g EmptyString, r1) else (EmptyString, r)
          | EmptyString => (EmptyString, r)
          end in
        match span_digits r' with
        | (EmptyString, _) => (EmptyString, s)
        | (ds, rest) => (String e (sign ++ ds), rest)
        end
      else (EmptyString, s)
  | EmptyString => (EmptyString, s)
  end.

Definition parse_number (s : string) : option (json * string) :=
  let (neg, s1) :=
    match s with
    | String "-"%char r => (true, r)
    | _ => (false, s)
    end in
  match span_int s1 with
  | None => None
  | Some (ip, s2) =>
      let (fp, s3) := span_frac s2 in
      let (ep, s4) := span_exp s3 in
      match fp, ep with
      | EmptyString, EmptyString =>
          let n := Z_of_digits 0 ip in
          Some (JInt (if neg then (- n)%Z else n), s4)
      | _, _ =>
          Some (JFloat ((if neg then "-" else EmptyString) ++ ip ++ fp ++ ep),
                s4)
      end
  end.

Definition hex_value (c : ascii) : option nat :=
  let n := nat_of_ascii c in
  if ((48 <=? n) && (n <=? 57))%nat then Some (n - 48)
  else if ((97 <=? n) && (n <=? 102))%nat then Some (n - 87)
  else if ((65 <=? n) && (n <=? 70))%nat then Some (n - 55)
  else None.

(** UTF-8 bytes of a code point below 65536. *)
Definition utf8 (n : nat) : string :=
  if (n <? 128)%nat then String (ascii_of_nat n) EmptyString
  else if (n <? 2048)%nat then
    String (ascii_of_nat (192 + n / 64))
      (String (ascii_of_nat (128 + n mod 64)) EmptyString)
  else
    String (ascii_of_nat (224 + n / 4096))
      (String (ascii_of_nat (128 + (n / 64) mod 64))
         (String (ascii_of_nat (128 + n mod 64)) EmptyString)).

Definition simple_escape (c : ascii) : option ascii :=
  let n := nat_of_ascii c in
  if (n =? 34)%nat || (n =? 92)%nat || (n =? 47)%nat then Some c
  else if Ascii.eqb c "b"%char then Some (ascii_of_nat 8)
  else if Ascii.eqb c "f"%char then Some (ascii_of_nat 12)
  else if Ascii.eqb c "n"%char then Some (ascii_of_nat 10)
  else if Ascii.eqb c "r"%char then Some (ascii_of_nat 13)
  else if Ascii.eqb c "t"%char then Some (ascii_of_nat 9)
  else None.

(** The text of a string literal after its opening quote, and what follows
    the closing quote. *)
Fixpoint parse_string_body (s : string) : option (string * string) :=
  match s with
  | EmptyString => None
  | String c r =>
      if (nat_of_ascii c =? 34)%nat then Some (EmptyString, r)
      else if (nat_of_ascii c <? 32)%nat then None
      else if (nat_of_ascii c =? 92)%nat then
        match r with
        | String "u"%char (String h1 (String h2 (String h3 (String h4 r')))) =>
            match hex_value h1, hex_value h2, hex_value h3, hex_value h4 with
            | Some a, Some b, Some c', Some d =>
                match parse_string_body r' with
                | Some (t, rest) =>
                    Some ((utf8 (((a * 16 + b) * 16 + c') * 16 + d) ++ t)%string,
                          rest)
                | None => None
                end
            | _, _, _, _ => None
            end
        | String e r' =>
            match simple_escape e with
            | Some x =>
                match parse_string_body r' with
                | Some (t, rest) => Some (String x t, rest)
                | None => None
                end
            | None => None
            end
        | EmptyString => None
        end
      else
        match parse_string_body r with
        | Some (t, rest) => Some (String c t, rest)
        | None => None
        end
  end.

(** [d[k] = v] while a dictionary is built from pairs. *)
Definition dict_set {V : Type} (k : string) (v : V) (d : dict V) : dict V :=
  dict_upd k v (fun _ => v) d.

Section Containers.

(** The parser of one value, for the elements of a container. *)
Variable parse_elem : string -> option (json * string).

(** The members of an object, from the opening quote of a key on. *)
Fixpoint parse_members (fuel : nat) (s : string) (acc : dict json)
  : option (json * string) :=
  match fuel, s with
  | S f, String q r =>
      if (nat_of_ascii q =? 34)%nat then
        match parse_string_body r with
        | Some (k, r1) =>
            match skip_ws r1 with
            | String ":"%char r2 =>
                match parse_elem (skip_ws r2) with
                | Some (v, r3) =>
                    match skip_ws r3 with
                    | String "}"%char r4 =>
                        Some (JObj (dict_set k v acc), r4)
                    | String ","%char r4 =>
                        parse_members f (skip_ws r4) (dict_set k v acc)
                    | _ => None
                    end
                | None => None
                end
            | _ => None
            end
        | None => None
        end
      else None
  | _, _ => None
  end.

(** The items of an array, from the first character of an item on. *)
Fixpoint parse_items (fuel : nat) (s : string) (acc : list json)
  : option (json * string) :=
  match fuel with
  | S f =>
      match parse_elem s with
      | Some (v, r1) =>
          match skip_ws r1 with
          | String "]"%char r2 => Some (JArr (acc ++ [v]), r2)
          | String ","%char r2 => parse_items f (skip_ws r2) (acc ++ [v])
          | _ => None
          end
      | None => None
      end
  | O => None
  end.

End Containers.

Definition parse_literal (s : string) : option (json * string) :=
  match strip_prefix "null" s with
  | Some r => Some (JNull, r)
  | None =>
  match strip_prefix "true" s with
  | Some r => Some (JBool true, r)
  | None =>
  match strip_prefix "false" s with
  | Some r => Some (JBool false, r)
  | None =>
  match strip_prefix "NaN" s with
  | Some r => Some (JFloat "nan", r)
  | None =>
  match strip_prefix "Infinity" s with
  | Some r => Some (JFloat "inf", r)
  | None =>
  match strip_prefix "-Infinity" s with
  | Some r => Some (JFloat "-inf", r)
  | None => parse_number s
  end end end end end end.

(** One JSON value at the head of [s].  [fuel] bounds the nesting depth and
    the number of elements of a container. *)
Fixpoint parse_value (fuel : nat) (s : string) : option (json * string) :=
  match fuel with
  | O => None
  | S f =>
      match s with
      | String c r =>
          if (nat_of_ascii c =? 34)%nat then
            match parse_string_body r with
            | Some (t, rest) => Some (JStr t, rest)
            | None => None
            end
          else if Ascii.eqb c "{"%char then
            match skip_ws r with
            | String "}"%char r' => Some (JObj [], r')
            | r' => parse_members (parse_value f) f r' []
            end
          else if Ascii.eqb c "["%char then
            match skip_ws r with
            | String "]"%char r' => Some (JArr [], r')
            | r' => parse_items (parse_value f) f r' []
            end
          else parse_literal s
      | EmptyString => None
      end
  end.

(** [json.loads]: one value, with white space around it and nothing else. *)
Definition json_loads_ref (s : string) : result json :=
  let s' := skip_ws s in
  match parse_value (S (String.length s')) s' with
  | Some (v, rest) =>
      match skip_ws rest with
      | EmptyString => inr v
      | _ => inl (JSONDecodeError "Extra data")
      end
  | None => inl (JSONDecodeError "Expecting value")
  end.

(** *** The built-in [sum] and the true division *)

(** [float(n)] for an integer: the binary64 nearest to [n], ties to even;
    an integer that rounds beyond the largest float raises, with the
    message of the operation that asked for the conversion. *)
Definition float_of_int (msg : string) (n : Z) : result float :=
  match SpecFloat.binary_normalize prec emax n 0 false with
  | SpecFloat.S754_infinity _ => inl (OverflowError msg)
  | sf => inr (SF2Prim sf)
  end.

Definition int_too_large : string := "int too large to convert to float".

(** [x + y]: exact on two integers; an integer added to a float is
    converted first; two floats are added as binary64. *)
Definition py_add_ref (x y : number) : result number :=
  match x, y with
  | PyInt a, PyInt b => inr (PyInt (a + b))
  | PyInt a, PyFloat g =>
      match float_of_int int_too_large a with
      | inl e => inl e
      | inr f => inr (PyFloat (PrimFloat.add f g))
      end
  | PyFloat f, PyInt b =>
      match float_of_int int_too_large b with
      | inl e => inl e
      | inr g => inr (PyFloat (PrimFloat.add f g))
      end
  | PyFloat f, PyFloat g => inr (PyFloat (PrimFloat.add f g))
  end.

(** The numbers of [l] added one after the other to [acc]. *)
Fixpoint py_sum_from (acc : number) (l : list number) : result number :=
  match l with
  | [] => inr acc
  | x :: r =>
      match py_add_ref acc x with
      | inl e => inl e
      | inr acc' => py_sum_from acc' r
      end
  end.

(** [sum(l)]: the numbers are added from left to right, starting from the
    integer 0.  (This is [sum] as CPython computes it up to version 3.11;
    from 3.12 on a run of float additions carries a correction term.) *)
Definition py_sum_ref (l : list number) : result number :=
  py_sum_from (PyInt 0) l.

(** [a / b] on an integer [a] and a positive integer [b]: the binary64
    nearest to the exact quotient, ties to even.  The quotient is taken
    with enough binary digits, and one more digit records whether anything
    is left over. *)
Definition int_truediv (a b : Z) : result float :=
  let n := Z.abs a in
  let k := Z.max 0 (56 + Z.log2 b - Z.log2 n) in
  let q := (n * 2 ^ k / b)%Z in
  let r := ((n * 2 ^ k) mod b)%Z in
  let m := (2 * q + (if (r =? 0)%Z then 0 else 1))%Z in
  match SpecFloat.binary_normalize prec emax (Z.sgn a * m) (- k - 1) false
  with
  | SpecFloat.S754_infinity _ =>
      inl (OverflowError "integer division result too large for a float")
  | sf => inr (SF2Prim sf)
  end.

(** [x / n] for a number [x] and a non-negative integer [n]. *)
Definition py_truediv_ref (x : number) (n : nat) : result float :=
  match n, x with
  | O, PyInt _ => inl (ZeroDivisionError "division by zero")
  | O, PyFloat _ => inl (ZeroDivisionError "float division by zero")
  | _, PyInt a => int_truediv a (Z.of_nat n)
  | _, PyFloat f =>
      match float_of_int int_too_large (Z.of_nat n) with
      | inl e => inl e
      | inr g => inr (PrimFloat.div f g)
      end
  end.

(* ===================================================================== *)
(** ** Sample data                                                         *)
(* ===================================================================== *)

(** Historical records for the aggregator: three weather alerts sharing
    actions, and two records of the type "unknown", one by default. *)
Definition sample_alerts : list alert :=
  [ mkAlert (Some "weather") (Some ["evacuate"; "shelter"])
            (Some (PyInt 7));
    mkAlert (Some "weather") (Some ["shelter"; "sandbags"; "radio"])
            (Some (PyInt 8));
    mkAlert None (Some ["call"]) None;
    mkAlert (Some "weather") (Some ["radio"; "shelter"; "boats"]) None;
    mkAlert (Some "unknown") None (Some (PyInt 3)) ].

(** Three records of one type whose severities are the floats 0.1, 0.2 and
    0.3 (the binary64 nearest to each). *)
Definition float_severities : list alert :=
  [ mkAlert (Some "weather") None (Some (PyFloat 0x1.999999999999ap-4));
    mkAlert (Some "weather") None (Some (PyFloat 0x1.999999999999ap-3));
    mkAlert (Some "weather") None (Some (PyFloat 0x1.3333333333333p-2)) ].

(** Three records of one type whose severities are the floats 1e308, 1e308
    and -1e308. *)
Definition large_severities : list alert :=
  [ mkAlert (Some "weather") None (Some (PyFloat 0x1.1ccf385ebc8a0p+1023));
    mkAlert (Some "weather") None (Some (PyFloat 0x1.1ccf385ebc8a0p+1023));
    mkAlert (Some "weather") None
            (Some (PyFloat (-0x1.1ccf385ebc8a0p+1023))) ].

(** Three records of one type whose severity is the integer 10 ** 400. *)
Definition huge_severities : list alert :=
  [ mkAlert (Some "weather") None (Some (PyInt (10 ^ 400)));
    mkAlert (Some "weather") None (Some (PyInt (10 ^ 400)));
    mkAlert (Some "weather") None (Some (PyInt (10 ^ 400))) ].

(** The current alert of the module's own test event (lines 323-333). *)
Definition sample_alert : dict json :=
  [ ("eventType", JStr "weather");
    ("subType", JStr "hurricane");
    ("severity", JInt 8);
    ("headline", JStr "Hurricane Warning for Coastal Areas");
    ("description",
     JStr "Category 3 hurricane approaching with expected landfall in 24 hours.");
    ("location", JObj [ ("lat", JFloat "25.7617");
                        ("lng", JFloat "-80.1918") ]);
    ("affectedAreas",
     JArr [ JObj [ ("areaId", JStr "area-123");
                   ("areaName", JStr "Miami-Dade County");
                   ("areaType", JStr "county") ] ]) ].

(** Its historical alerts (lines 334-348). *)
Definition sample_historical : json :=
  JArr [ JObj [ ("eventType", JStr "weather");
                ("subType", JStr "hurricane");
                ("severity", JInt 7);
                ("headline", JStr "Hurricane Warning");
                ("startTime", JStr "2024-05-15T10:00:00Z");
                ("effectiveActions",
                 JArr [ JStr "Early evacuation of coastal areas";
                        JStr "Securing critical infrastructure";
                        JStr "Establishing emergency shelters" ]);
                ("outcomes",
                 JArr [ JStr "Minimal casualties";
                        JStr "Significant property damage" ]) ] ].

Definition sample_context (current_alert historical : json) : dict json :=
  [ ("currentAlert", current_alert); ("historicalAlerts", historical) ].

Definition sample_event (context_data : dict json) : dict json :=
  [ ("action", JStr action_name); ("context", JObj context_data) ].

(** An agent that answers every prompt with the same text. *)
Definition scripted_agent (reply : string) : string -> result string :=
  fun _ => inr reply.

(** The handler run with the reference library functions. *)
Definition run_scripted (reply : string) (event : json)
  : result response * trace :=
  lambda_handler (scripted_agent reply) json_loads_ref json_dumps_ref
                 py_repr_ref event.

(** Two records of one type with four actions, each met once. *)
Definition four_actions : list alert :=
  [ mkAlert (Some "weather") (Some ["a"; "b"]) None;
    mkAlert (Some "weather") (Some ["c"; "d"]) None ].


(** A reply with an object between two pieces of prose. *)
Definition sample_reply : string :=
  ("blah {" ++ dq ++ "priorityLevel" ++ dq ++ ":" ++ dq ++ "high" ++ dq
     ++ "} trailing")%string.

(* ===================================================================== *)
(** * Properties                                                           *)
(* ===================================================================== *)

(** ** Dictionaries *)

Section DictFacts.

Context {V : Type}.
Implicit Types (d : dict V) (k : string).

Lemma dict_get_upd_same k init f d :
  dict_get k (dict_upd k init f d) = Some (f (get_or (dict_get k d) init)).
Proof.
  induction d as [|[k' v] r IH]; simpl.
  - now rewrite String.eqb_refl.
  - destruct (String.eqb k' k) eqn:E; simpl; rewrite E; auto.
Qed.

Lemma dict_get_upd_other k k' init f d :
  k' <> k -> dict_get k' (dict_upd k init f d) = dict_get k' d.
Proof.
  intros Hne. induction d as [|[k0 v] r IH]; simpl.
  - destruct (String.eqb k k') eqn:E; auto.
    apply String.eqb_eq in E. congruence.
  - destruct (String.eqb k0 k) eqn:E; simpl.
    + apply String.eqb_eq in E. subst k0.
      destruct (String.eqb k k') eqn:E'; auto.
      apply String.eqb_eq in E'. congruence.
    + now rewrite IH.
Qed.

Lemma dict_get_In k v d : dict_get k d = Some v -> In (k, v) d.
Proof.
  induction d as [|[k' v'] r IH]; simpl; [discriminate|].
  destruct (String.eqb k' k) eqn:E.
  - apply String.eqb_eq in E. intros [= ->]. subst. now left.
  - intros H. right. auto.
Qed.

Lemma dict_get_None k d : dict_get k d = None <-> ~ In k (map fst d).
Proof.
  induction d as [|[k' v'] r IH]; simpl.
  - tauto.
  - destruct (String.eqb k' k) eqn:E.
    + apply String.eqb_eq in E. split; [discriminate|]. intros H.
      exfalso. apply H. now left.
    + apply String.eqb_neq in E. rewrite IH. tauto.
Qed.

Lemma In_dict_get k v d :
  NoDup (map fst d) -> In (k, v) d -> dict_get k d = Some v.
Proof.
  induction d as [|[k' v'] r IH]; simpl; [tauto|].
  intros Hnd [H|H].
  - injection H as -> ->. now rewrite String.eqb_refl.
  - inversion Hnd as [|? ? Hnotin Hnd']; subst.
    destruct (String.eqb k' k) eqn:E; auto.
    apply String.eqb_eq in E. subst k'. exfalso. apply Hnotin.
    change k with (fst (k, v)). now apply in_map.
Qed.

(** The keys after an update: unchanged for a known key, one more at the
    end for a new one. *)
Lemma dict_upd_keys k init f d :
  map fst (dict_upd k init f d) =
  if dict_mem k d then map fst d else map fst d ++ [k].
Proof.
  unfold dict_mem. induction d as [|[k' v] r IH]; simpl; auto.
  destruct (String.eqb k' k) eqn:E; simpl; auto.
  rewrite IH. now destruct (dict_get k r).
Qed.

Lemma dict_upd_NoDup k init f d :
  NoDup (map fst d) -> NoDup (map fst (dict_upd k init f d)).
Proof.
  intros Hnd. rewrite dict_upd_keys. unfold dict_mem.
  destruct (dict_get k d) eqn:E; auto.
  apply dict_get_None in E.
  apply NoDup_app; auto.
  - repeat constructor. simpl. tauto.
  - intros x Hx [<-|[]]. auto.
Qed.

End DictFacts.

(** ** The aggregator: what the code reads in a record *)

(** The three [.get] of the code read what the specification reads. *)
Lemma event_type_of_spec a : event_type_of a = record_type a.
Proof. reflexivity. Qed.

Lemma actions_of_spec a : actions_of a = record_actions a.
Proof. reflexivity. Qed.

Lemma severity_of_spec a : severity_of a = record_severity a.
Proof. reflexivity. Qed.

(** ** The aggregator: grouping *)

Lemma partition_of_cons t a alerts :
  partition_of t (a :: alerts) =
  if String.eqb (record_type a) t then a :: partition_of t alerts
  else partition_of t alerts.
Proof. reflexivity. Qed.

(** The grouping loop started from any dictionary: each group receives, at
    its end and in input order, the alerts of its type. *)
Lemma group_loop alerts : forall acc : dict (list alert),
  NoDup (map fst acc) ->
  NoDup (map fst (fold_left group_step alerts acc)) /\
  forall t,
    dict_get t (fold_left group_step alerts acc) =
    match dict_get t acc with
    | Some l => Some (l ++ partition_of t alerts)
    | None => match partition_of t alerts with
              | [] => None
              | p => Some p
              end
    end.
Proof.
  induction alerts as [|a r IH]; intros acc Hnd; cbn [fold_left].
  - split; auto. intros t. cbn. destruct (dict_get t acc); auto.
    now rewrite app_nil_r.
  - assert (Hnd1 : NoDup (map fst (group_step acc a)))
      by now apply dict_upd_NoDup.
    destruct (IH _ Hnd1) as [Hnd' Hget]. split; auto.
    intros t. rewrite Hget, partition_of_cons. unfold group_step.
    rewrite event_type_of_spec.
    destruct (String.eqb (record_type a) t) eqn:E.
    + apply String.eqb_eq in E. subst t. rewrite dict_get_upd_same.
      destruct (dict_get (record_type a) acc); simpl; auto.
      now rewrite <- app_assoc.
    + apply String.eqb_neq in E. rewrite dict_get_upd_other by congruence.
      reflexivity.
Qed.

Lemma alert_types_NoDup alerts : NoDup (map fst (alert_types alerts)).
Proof. apply (group_loop alerts []). constructor. Qed.

Lemma alert_types_get alerts t :
  dict_get t (alert_types alerts) =
  match partition_of t alerts with
  | [] => None
  | p => Some p
  end.
Proof. apply (group_loop alerts []). constructor. Qed.

(** ** Sequences of computations *)

Section CollectFacts.

Context {K X : Type}.
Implicit Types (f : K -> result (list X)) (keys : list K).

Lemma collect_inl f keys e :
  collect f keys = inl e -> exists k, In k keys /\ f k = inl e.
Proof.
  induction keys as [|k r IH]; simpl; [discriminate|].
  destruct (f k) as [e'|xs] eqn:E.
  - intros [= <-]. exists k. auto.
  - destruct (collect f r) as [e'|ys]; [|discriminate].
    intros [= <-]. destruct (IH eq_refl) as [k' [Hin Hk']].
    exists k'. auto.
Qed.

Lemma collect_map {J : Type} (g : J -> K) f (l : list J) :
  collect f (map g l) = collect (fun j => f (g j)) l.
Proof.
  induction l as [|j r IH]; simpl; auto. now rewrite IH.
Qed.

Lemma filter_all (p : X -> bool) (l : list X) :
  (forall x, In x l -> p x = true) -> filter p l = l.
Proof.
  intros H. apply forallb_filter_id, forallb_forall. exact H.
Qed.

Lemma filter_none (p : X -> bool) (l : list X) :
  (forall x, In x l -> p x = false) -> filter p l = [].
Proof.
  induction l as [|x r IH]; intros H; simpl; auto.
  rewrite (H x) by now left. apply IH. intros y Hy. apply H. now right.
Qed.

End CollectFacts.

(** ** The aggregator: the loop over the groups *)

Section PerGroup.

(** Entries produced group by group, each tagged with the key of its
    group: selecting one tag selects one group's entries. *)
Context {X : Type}.
Variable F : string -> list alert -> result (list X).
Variable tag : X -> string.
Hypothesis F_tag : forall k l xs x, F k l = inr xs -> In x xs -> tag x = k.

Lemma collect_groups t (groups : dict (list alert)) : forall xs,
  NoDup (map fst groups) ->
  collect (fun g => F (fst g) (snd g)) groups = inr xs ->
  match dict_get t groups with
  | Some l => F t l = inr (filter (fun x => String.eqb (tag x) t) xs)
  | None => filter (fun x => String.eqb (tag x) t) xs = []
  end.
Proof.
  induction groups as [|[k l] r IH]; simpl; intros xs Hnd.
  - now intros [= <-].
  - inversion Hnd as [|? ? Hnotin Hnd']; subst.
    destruct (F k l) as [e|ys] eqn:Ek; [discriminate|].
    destruct (collect _ r) as [e|zs] eqn:Er; [discriminate|].
    intros [= <-]. specialize (IH zs Hnd' eq_refl). rewrite filter_app.
    destruct (String.eqb k t) eqn:E.
    + apply String.eqb_eq in E. subst k.
      apply dict_get_None in Hnotin. rewrite Hnotin in IH.
      rewrite IH, app_nil_r, filter_all; auto.
      intros x Hx. apply String.eqb_eq. eauto.
    + apply String.eqb_neq in E. rewrite (filter_none _ ys); auto.
      intros x Hx. apply String.eqb_neq. now rewrite (F_tag _ _ _ _ Ek Hx).
Qed.

End PerGroup.

Lemma group_actions_tag k l xs e :
  @inr exn _ (group_actions k l) = inr xs -> In e xs -> ea_eventType e = k.
Proof.
  intros [= <-]. unfold group_actions. rewrite in_map_iff.
  intros [ac [<- _]]. reflexivity.
Qed.

(** The entries of one event type among those of all the groups. *)
Lemma group_actions_filter t alerts :
  filter (fun e => String.eqb (ea_eventType e) t)
         (flat_map (fun g => group_actions (fst g) (snd g))
                   (alert_types alerts)) =
  group_actions t (partition_of t alerts).
Proof.
  assert (Hc : forall groups : dict (list alert),
             collect (fun g => @inr exn _ (group_actions (fst g) (snd g)))
                     groups =
             inr (flat_map (fun g => group_actions (fst g) (snd g)) groups)).
  { induction groups as [|g r IH]; simpl; auto. now rewrite IH. }
  pose proof (collect_groups (fun k l => inr (group_actions k l))
                ea_eventType group_actions_tag t (alert_types alerts) _
                (alert_types_NoDup alerts) (Hc _)) as H.
  rewrite alert_types_get in H.
  destruct (partition_of t alerts) as [|a r].
  - exact H.
  - now injection H as <-.
Qed.

Section AggregatorFacts.

Variable py_sum : list number -> result number.
Variable py_truediv : number -> nat -> result float.

Local Abbreviation group_patterns' := (group_patterns py_sum py_truediv).
Local Abbreviation analyze_groups' := (analyze_groups py_sum py_truediv).
Local Abbreviation analyze := (analyze_historical_patterns py_sum py_truediv).
Local Abbreviation python_mean' := (python_mean py_sum py_truediv).
Local Abbreviation mean_raises' := (mean_raises py_sum py_truediv).

Lemma analyze_loop_eq groups : forall acc : analysis,
  analyze_loop py_sum py_truediv groups acc =
  match collect (fun g => group_patterns' (fst g) (snd g)) groups with
  | inl e => inl e
  | inr summaries =>
      inr {| patterns := patterns acc ++ summaries;
             effective_actions :=
               effective_actions acc
                 ++ flat_map (fun g => group_actions (fst g) (snd g))
                             groups |}
  end.
Proof.
  induction groups as [|g r IH]; intros acc; simpl.
  - rewrite !app_nil_r. now destruct acc.
  - unfold analyze_step.
    destruct (group_patterns' (fst g) (snd g)) as [e|xs]; auto.
    rewrite IH. simpl.
    destruct (collect _ r) as [e|ys]; auto.
    now rewrite <- !app_assoc.
Qed.

Lemma analyze_groups_eq groups :
  analyze_groups' groups =
  match collect (fun g => group_patterns' (fst g) (snd g)) groups with
  | inl e => inl e
  | inr summaries =>
      inr {| patterns := summaries;
             effective_actions :=
               flat_map (fun g => group_actions (fst g) (snd g)) groups |}
  end.
Proof. unfold analyze_groups. now rewrite analyze_loop_eq. Qed.

(** The patterns of a partition, in the words of the specification: one
    summary with the mean of the severities when the partition has three
    records or more and the mean returns. *)
Lemma group_patterns_spec t (part : list alert) :
  group_patterns' t part =
  if (3 <=? List.length part)%nat then
    match python_mean' (map record_severity part) with
    | inl e => inl e
    | inr average => inr [ pattern_summary t (List.length part) average ]
    end
  else inr [].
Proof.
  unfold group_patterns, average_severity, python_mean.
  rewrite length_map.
  now rewrite (map_ext severity_of record_severity severity_of_spec).
Qed.

Lemma group_patterns_tag k l xs p :
  group_patterns' k l = inr xs -> In p xs -> ps_eventType p = k.
Proof.
  rewrite group_patterns_spec.
  destruct (3 <=? List.length l)%nat.
  - destruct (python_mean' _) as [e|average]; [discriminate|].
    intros [= <-] [<-|[]]. reflexivity.
  - intros [= <-] [].
Qed.

Lemma analyze_some alerts :
  analyze (Some alerts) = analyze_groups' (alert_types alerts).
Proof. destruct alerts; reflexivity. Qed.

(** When the aggregator returns, the entries emitted for one event type
    are those its partition produces. *)
Lemma emitted_actions_eq t alerts out :
  analyze (Some alerts) = inr out ->
  emitted_actions t out = group_actions t (partition_of t alerts).
Proof.
  rewrite analyze_some, analyze_groups_eq.
  destruct (collect _ (alert_types alerts)) as [e|summaries];
    [discriminate|].
  intros [= <-]. unfold emitted_actions. simpl.
  apply group_actions_filter.
Qed.

Lemma emitted_patterns_eq t alerts out :
  analyze (Some alerts) = inr out ->
  group_patterns' t (partition_of t alerts) = inr (emitted_patterns t out).
Proof.
  rewrite analyze_some, analyze_groups_eq.
  destruct (collect _ (alert_types alerts)) as [e|summaries] eqn:Ec;
    [discriminate|].
  intros [= <-]. unfold emitted_patterns. simpl.
  pose proof (collect_groups (fun k l => group_patterns' k l) ps_eventType
                group_patterns_tag t (alert_types alerts) _
                (alert_types_NoDup alerts) Ec) as H.
  rewrite alert_types_get in H.
  destruct (partition_of t alerts) as [|a r].
  - now rewrite H.
  - exact H.
Qed.

(** When the aggregator raises, the mean of a partition raised. *)
Lemma analyze_raises alerts e :
  analyze (Some alerts) = inl e -> mean_raises' alerts e.
Proof.
  rewrite analyze_some, analyze_groups_eq.
  destruct (collect _ (alert_types alerts)) as [e0|summaries] eqn:Ec;
    [|discriminate].
  intros [= ->]. apply collect_inl in Ec as [[t l] [Hin Hraise]].
  simpl in Hraise.
  apply In_dict_get in Hin; [|apply alert_types_NoDup].
  rewrite alert_types_get in Hin.
  assert (Hl : l = partition_of t alerts).
  { destruct (partition_of t alerts); [discriminate|]. now injection Hin. }
  subst l. rewrite group_patterns_spec in Hraise. exists t.
  destruct (3 <=? List.length (partition_of t alerts))%nat eqn:E;
    [|discriminate].
  apply Nat.leb_le in E. split; auto.
  destruct (python_mean' _) as [e1|average]; [|discriminate].
  now injection Hraise as ->.
Qed.

End AggregatorFacts.

(** ** The aggregator: the tally *)

Lemma count_loop_flat l : forall acc : dict nat,
  fold_left (fun acc a => fold_left count_step (actions_of a) acc) l acc =
  fold_left count_step (flat_map record_actions l) acc.
Proof.
  induction l as [|a r IH]; intros acc; simpl; auto.
  now rewrite fold_left_app, IH, actions_of_spec.
Qed.

Lemma first_index_app x l l' :
  In x l -> first_index x (l ++ l') = first_index x l.
Proof.
  induction l as [|y r IH]; simpl; [tauto|].
  destruct (String.eqb y x) eqn:E; auto.
  apply String.eqb_neq in E. intros [H|H]; [congruence|]. now rewrite IH.
Qed.

Lemma first_index_lt x l : In x l -> first_index x l < List.length l.
Proof.
  induction l as [|y r IH]; simpl; [tauto|].
  destruct (String.eqb y x) eqn:E; [lia|].
  apply String.eqb_neq in E. intros [H|H]; [congruence|].
  specialize (IH H). lia.
Qed.

Lemma first_index_new x l :
  ~ In x l -> first_index x (l ++ [x]) = List.length l.
Proof.
  induction l as [|y r IH]; simpl.
  - now rewrite String.eqb_refl.
  - intros H. destruct (String.eqb y x) eqn:E.
    + apply String.eqb_eq in E. tauto.
    + rewrite IH; tauto.
Qed.

Section SortedFacts.

Context {A : Type}.
Implicit Types (R : A -> A -> Prop) (l : list A).

Lemma StronglySorted_In_impl R R' l :
  (forall a b, In a l -> In b l -> R a b -> R' a b) ->
  StronglySorted R l -> StronglySorted R' l.
Proof.
  induction l as [|x r IH]; intros Himp Hs; [constructor|].
  inversion Hs as [|? ? Hs' Hall]; subst. constructor.
  - apply IH; auto. intros a b Ha Hb. apply Himp; now right.
  - rewrite Forall_forall in *. intros y Hy.
    apply Himp; [now left | now right | auto].
Qed.

Lemma StronglySorted_snoc R l x :
  StronglySorted R l -> (forall a, In a l -> R a x) ->
  StronglySorted R (l ++ [x]).
Proof.
  induction l as [|y r IH]; intros Hs Hx; simpl.
  - repeat constructor.
  - inversion Hs as [|? ? Hs' Hall]; subst. constructor.
    + apply IH; auto. intros a Ha. apply Hx. now right.
    + apply Forall_app. split; auto. constructor; auto.
      apply Hx. now left.
Qed.

Lemma StronglySorted_app_inv R l l' :
  StronglySorted R (l ++ l') ->
  StronglySorted R l /\ StronglySorted R l' /\
  forall a b, In a l -> In b l' -> R a b.
Proof.
  induction l as [|x r IH]; simpl; intros Hs.
  - repeat split; auto. constructor. intros a b [].
  - inversion Hs as [|? ? Hs' Hall]; subst.
    destruct (IH Hs') as (H1 & H2 & H3).
    apply Forall_app in Hall as [Hr Hl'].
    repeat split; auto.
    + constructor; auto.
    + intros a b [<-|Ha] Hb; auto.
      rewrite Forall_forall in Hl'. auto.
Qed.

Lemma StronglySorted_map {B : Type} (f : B -> A) R (l : list B) :
  StronglySorted (fun x y => R (f x) (f y)) l <->
  StronglySorted R (map f l).
Proof.
  induction l as [|x r IH]; simpl.
  - split; constructor.
  - split; intros Hs; inversion Hs as [|? ? Hs' Hall]; subst;
      constructor; try (now apply IH).
    + now rewrite Forall_map.
    + now rewrite Forall_map in Hall.
Qed.

End SortedFacts.

Lemma count_occ_snoc (l : list string) x a :
  count_occ string_dec (l ++ [x]) a =
  count_occ string_dec l a + (if string_dec x a then 1 else 0).
Proof.
  rewrite count_occ_app. simpl. now destruct (string_dec x a).
Qed.

(** The tally loop computes the tally of the strings it has met. *)
Lemma tally_loop enc : tally_ok enc (fold_left count_step enc []).
Proof.
  induction enc as [|x enc IH] using rev_ind.
  - split; [constructor|]. split; [intros a n []|].
    split; [intros a []|constructor].
  - rewrite fold_left_app. simpl.
    set (d := fold_left count_step enc []) in *.
    destruct IH as (Hnd & Hcnt & Hall & Hord).
    assert (Hnd' : NoDup (map fst (count_step d x)))
      by now apply dict_upd_NoDup.
    split; [assumption|]. split; [|split].
    + intros a n H. apply In_dict_get in H; auto. unfold count_step in H.
      rewrite count_occ_snoc.
      destruct (string_dec x a) as [->|Hne].
      * split; [apply in_or_app; right; now left|].
        rewrite dict_get_upd_same in H. injection H as <-.
        destruct (dict_get a d) eqn:E; simpl.
        -- apply dict_get_In, Hcnt in E. lia.
        -- apply dict_get_None in E.
           assert (Hnot : ~ In a enc) by (intros Hin; apply E, Hall, Hin).
           rewrite (proj1 (count_occ_not_In string_dec enc a) Hnot). lia.
      * rewrite dict_get_upd_other in H by auto.
        apply dict_get_In, Hcnt in H. split; [apply in_or_app; tauto|lia].
    + intros a Ha. unfold count_step. rewrite dict_upd_keys.
      apply in_app_or in Ha. unfold dict_mem.
      destruct (dict_get x d) eqn:E.
      * destruct Ha as [Ha|[<-|[]]]; auto.
        apply dict_get_In in E. change x with (fst (x, n)).
        now apply in_map.
      * apply in_or_app. destruct Ha as [Ha|[<-|[]]]; auto.
        right. now left.
    + assert (Hkeys : forall a, In a (map fst d) -> In a enc).
      { intros a Ha. apply in_map_iff in Ha as [[a' n] [<- Hin]].
        now apply Hcnt in Hin. }
      assert (Hold : StronglySorted
                (fun a b => first_index a (enc ++ [x])
                            < first_index b (enc ++ [x])) (map fst d)).
      { eapply StronglySorted_In_impl; [|exact Hord].
        intros a b Ha Hb. rewrite !first_index_app by auto. auto. }
      unfold count_step. rewrite dict_upd_keys. unfold dict_mem.
      destruct (dict_get x d) eqn:E; auto.
      apply StronglySorted_snoc; auto.
      intros a Ha. apply dict_get_None in E.
      assert (Hnot : ~ In x enc) by (intros Hin; apply E, Hall, Hin).
      rewrite first_index_new by auto.
      rewrite first_index_app by auto. apply first_index_lt. auto.
Qed.

Lemma actions_count_ok type_alerts :
  tally_ok (flat_map record_actions type_alerts) (actions_count type_alerts).
Proof.
  unfold actions_count. rewrite count_loop_flat. apply tally_loop.
Qed.

(** ** The aggregator: the sort and the selection of three *)

Lemma insert_desc_perm x l : Permutation (insert_desc x l) (x :: l).
Proof.
  induction l as [|y r IH]; simpl; auto.
  destruct (snd x <? snd y)%nat; auto.
  rewrite IH. apply perm_swap.
Qed.

Lemma sorted_desc_perm l : Permutation (sorted_desc l) l.
Proof.
  induction l as [|x r IH]; simpl; auto.
  rewrite insert_desc_perm. now constructor.
Qed.

(** Inserting a pair met before every pair of a ranked list keeps the list
    ranked: this is where the stability of the sort shows. *)
Lemma insert_desc_rank enc x l :
  StronglySorted (rank enc) l ->
  (forall y, In y l -> first_index (fst x) enc < first_index (fst y) enc) ->
  StronglySorted (rank enc) (insert_desc x l).
Proof.
  induction l as [|y r IH]; intros Hs Hx; simpl.
  - repeat constructor.
  - inversion Hs as [|? ? Hs' Hall]; subst.
    rewrite Forall_forall in Hall.
    destruct (snd x <? snd y)%nat eqn:E.
    + apply Nat.ltb_lt in E. constructor.
      * apply IH; auto. intros z Hz. apply Hx. now right.
      * rewrite Forall_forall. intros z Hz.
        apply (Permutation_in _ (insert_desc_perm x r)) in Hz.
        destruct Hz as [<-|Hz]; [now left | auto].
    + apply Nat.ltb_ge in E. constructor; auto.
      rewrite Forall_forall. intros z Hz.
      assert (Hidx : first_index (fst x) enc < first_index (fst z) enc)
        by now apply Hx.
      assert (Hle : snd z <= snd x).
      { destruct Hz as [<-|Hz]; auto.
        destruct (Hall z Hz) as [H|[H _]]; lia. }
      unfold rank. lia.
Qed.

Lemma sorted_desc_rank enc l :
  StronglySorted
    (fun x y => first_index (fst x) enc < first_index (fst y) enc) l ->
  StronglySorted (rank enc) (sorted_desc l).
Proof.
  induction l as [|x r IH]; intros Hs; simpl; [constructor|].
  inversion Hs as [|? ? Hs' Hall]; subst.
  rewrite Forall_forall in Hall.
  apply insert_desc_rank; auto.
  intros y Hy. apply Hall.
  now apply (Permutation_in _ (sorted_desc_perm r)).
Qed.

Lemma firstn_3_length {A : Type} (l : list A) :
  skipn 3 l <> [] -> List.length (firstn 3 l) = 3.
Proof.
  destruct l as [|a [|b [|c r]]]; simpl; congruence.
Qed.

(** What the first three pairs of the sorted tally are. *)
Lemma top_three enc (d : dict nat) :
  tally_ok enc d ->
  let top := firstn 3 (sorted_desc d) in
  StronglySorted (rank enc) top /\
  NoDup (map fst top) /\
  (forall x, In x top -> In x d) /\
  (forall y, In y d ->
     In y top \/
     (List.length top = 3 /\ forall x, In x top -> rank enc x y)).
Proof.
  intros (Hnd & Hcnt & Hall & Hord) top.
  assert (Hs : StronglySorted (rank enc) (sorted_desc d)).
  { apply sorted_desc_rank.
    now apply (StronglySorted_map fst
                 (fun a b => first_index a enc < first_index b enc)). }
  assert (Hsplit : sorted_desc d = top ++ skipn 3 (sorted_desc d))
    by (symmetry; apply firstn_skipn).
  rewrite Hsplit in Hs.
  apply StronglySorted_app_inv in Hs as (Htop & _ & Hcross).
  split; [assumption|]. split; [|split].
  - assert (Hnd' : NoDup (map fst (sorted_desc d))).
    { eapply Permutation_NoDup; [|exact Hnd].
      apply Permutation_map, Permutation_sym, sorted_desc_perm. }
    rewrite Hsplit, map_app in Hnd'. now apply NoDup_app_remove_r in Hnd'.
  - intros x Hx. apply (Permutation_in _ (sorted_desc_perm d)).
    rewrite Hsplit. apply in_or_app. now left.
  - intros y Hy.
    apply (Permutation_in _ (Permutation_sym (sorted_desc_perm d))) in Hy.
    rewrite Hsplit in Hy. apply in_app_or in Hy as [Hy|Hy]; [now left|].
    right. split.
    + apply firstn_3_length. intros Hnil. rewrite Hnil in Hy. destruct Hy.
    + intros x Hx. now apply Hcross.
Qed.


Section AggregatorClaims.

Variable py_sum : list number -> result number.
Variable py_truediv : number -> nat -> result float.

Local Abbreviation analyze := (analyze_historical_patterns py_sum py_truediv).
Local Abbreviation python_mean' := (python_mean py_sum py_truediv).
Local Abbreviation mean_raises' := (mean_raises py_sum py_truediv).


(** ** The aggregator: pattern summaries *)

(** C4, as the code has it.  For every input sequence [alerts] and every
    event type [t]: when the aggregator returns, one PatternSummary is
    emitted for [t] if its partition has three records or more, none
    otherwise; the summary carries the size of the partition as [count], as
    [averageSeverity] the float Python finds for the sum of the severities
    (0 for a record without one, in input order) divided by the size, and a
    description naming the event type and the number of occurrences.  The
    aggregator returns unless that sum or that division raises for a
    partition of three records or more; it then raises the same
    exception. *)
Theorem C4_pattern_summary (alerts : list alert) (t : string) :
  let part := partition_of t alerts in
  match analyze_historical_patterns py_sum py_truediv (Some alerts) with
  | inr out =>
      if (3 <=? List.length part)%nat then
        exists average,
          python_mean py_sum py_truediv (map record_severity part)
            = inr average /\
          emitted_patterns t out =
            [ {| ps_eventType := t;
                 count := List.length part;
                 averageSeverity := average;
                 description :=
                   ("Pattern of " ++ t ++ " alerts identified with "
                      ++ str_of_nat (List.length part) ++ " occurrences")
                   %string |} ]
      else emitted_patterns t out = []
  | inl e => mean_raises py_sum py_truediv alerts e
  end.
Proof.
  intros part.
  destruct (analyze (Some alerts)) as [e|out] eqn:Eout;
    [now apply analyze_raises|].
  pose proof (emitted_patterns_eq _ _ t _ _ Eout) as H.
  rewrite group_patterns_spec in H. fold part in H.
  destruct (3 <=? List.length part)%nat.
  - destruct (python_mean' (map record_severity part)) as [e|average];
      [discriminate|].
    exists average. split; auto. now injection H as <-.
  - now injection H as <-.
Qed.

(** ** The aggregator: confidence *)

Lemma effective_in_emitted e out :
  In e (effective_actions out) -> In e (emitted_actions (ea_eventType e) out).
Proof.
  intros H. unfold emitted_actions. apply filter_In. split; auto.
  apply String.eqb_refl.
Qed.

(** C5.  For every input (a sequence, or no sequence at all): when the
    aggregator returns, every EffectiveAction emitted has as [confidence]
    the minimum of count / partition_size and 0.95, for the tallied count
    of its action and the size, not zero, of the partition of its event
    type; no confidence exceeds 0.95.  The aggregator returns unless the
    mean of the severities of a partition raises. *)
Theorem C5_confidence (input : option (list alert)) :
  let alerts := get_or input [] in
  match analyze_historical_patterns py_sum py_truediv input with
  | inr out =>
      Forall (fun e =>
                let part := partition_of (ea_eventType e) alerts in
                let n := tally (ea_eventType e) alerts (ea_action e) in
                0 < List.length part /\
                confidence e =
                  Qmin (inject_Z (Z.of_nat n)
                          / inject_Z (Z.of_nat (List.length part)))
                       (95 # 100) /\
                (confidence e <= 95 # 100)%Q)
             (effective_actions out)
  | inl e => mean_raises py_sum py_truediv alerts e
  end.
Proof.
  destruct input as [alerts|]; [cbn [get_or]|constructor].
  destruct (analyze (Some alerts)) as [e|out] eqn:Eout;
    [now apply analyze_raises|].
  rewrite Forall_forall. intros e He.
  apply effective_in_emitted in He.
  rewrite (emitted_actions_eq _ _ _ _ _ Eout) in He.
  pose proof (actions_count_ok (partition_of (ea_eventType e) alerts)) as Hok.
  destruct (top_three _ _ Hok) as (_ & _ & Hsub & _).
  destruct Hok as (_ & Hcnt & _ & _).
  unfold group_actions in He.
  apply in_map_iff in He as [[a n] [Heq Hin]].
  apply Hsub, Hcnt in Hin as [Henc Hn].
  fold (encounter (ea_eventType e) alerts) in Henc, Hn.
  fold (tally (ea_eventType e) alerts a) in Hn.
  assert (Ha : ea_action e = a) by now rewrite <- Heq.
  assert (Hc : confidence e =
               Qmin (inject_Z (Z.of_nat n)
                       / inject_Z (Z.of_nat
                                     (List.length
                                        (partition_of (ea_eventType e)
                                                      alerts))))
                    (95 # 100)) by now rewrite <- Heq.
  cbv zeta. rewrite Ha, <- Hn. split; [|split].
  - unfold encounter in Henc.
    destruct (partition_of (ea_eventType e) alerts).
    + destruct Henc.
    + simpl. lia.
  - exact Hc.
  - rewrite Hc. apply Q.le_min_r.
Qed.

(** C8.  For the empty sequence, and when no sequence is passed, the
    aggregator returns empty [patterns] and empty [effective_actions]. *)
Theorem C8_empty_input :
  analyze_historical_patterns py_sum py_truediv (Some []) =
    inr {| patterns := []; effective_actions := [] |} /\
  analyze_historical_patterns py_sum py_truediv None =
    inr {| patterns := []; effective_actions := [] |}.
Proof. split; reflexivity. Qed.

End AggregatorClaims.

(** ** The best-practices lookup *)

Lemma ascii_lower_char_no_upper c : is_upper (ascii_lower_char c) = false.
Proof. destruct c as [[] [] [] [] [] [] [] []]; reflexivity. Qed.

Lemma ascii_lower_no_upper s :
  string_forallb (fun c => negb (is_upper c)) (ascii_lower s) = true.
Proof.
  induction s as [|c r IH]; simpl; auto.
  now rewrite ascii_lower_char_no_upper, IH.
Qed.

(** A string without capital letters differs from one that starts with a
    capital letter. *)
Lemma upper_head_neq c r c' r' :
  is_upper c' = true ->
  string_forallb (fun c => negb (is_upper c)) (String c r) = true ->
  String.eqb (String c r) (String c' r') = false.
Proof.
  intros Hup H. simpl in H. apply andb_true_iff in H as [H _].
  simpl. destruct (Ascii.eqb_spec c c') as [->|]; auto.
  rewrite Hup in H. discriminate.
Qed.

(** Every string of the global default list starts with a capital letter,
    so no lower-case string is an element of the list. *)
Lemma no_upper_not_global_default x :
  string_forallb (fun c => negb (is_upper c)) x = true ->
  existsb (String.eqb x) global_default = false.
Proof.
  intros H. destruct x as [|c r]; [reflexivity|].
  unfold global_default, existsb.
  rewrite !(upper_head_neq c r) by (auto; reflexivity). reflexivity.
Qed.

Ltac split_eqb :=
  repeat match goal with
  | |- context [String.eqb ?a ?b] =>
      destruct (String.eqb_spec a b); subst; try congruence
  end.

Lemma resolve_nonempty k st : resolve k st <> [].
Proof.
  unfold resolve, table_entry. destruct st as [s|]; split_eqb; discriminate.
Qed.

Section BestPracticesFacts.

Variable lower : string -> string.

(** What the proofs use of [str.lower]: its result has no capital ASCII
    letter, and on ASCII text it moves A-Z to a-z and nothing else. *)
Hypothesis lower_no_upper :
  forall s, string_forallb (fun c => negb (is_upper c)) (lower s) = true.
Hypothesis lower_ascii :
  forall s, string_forallb is_ascii s = true -> lower s = ascii_lower s.

Lemma lower_empty : lower EmptyString = EmptyString.
Proof. now rewrite lower_ascii. Qed.

(** The function follows the resolution order on the lower-cased keys. *)
Lemma get_best_practices_resolve event_type sub_type :
  get_best_practices lower event_type sub_type =
  inr (Practices (resolve (lower event_type) (option_map lower sub_type))).
Proof.
  unfold get_best_practices, resolve, table_entry, dict_mem,
    table_subscript.
  generalize (lower event_type) as k. intros k.
  unfold best_practices. cbn [dict_get].
  split_eqb.
  all: destruct sub_type as [[|c r]|];
    cbn [str_truthy option_map get_or andb]; rewrite ?lower_empty.
  all: try (generalize (lower_no_upper (String c r));
            generalize (lower (String c r)) as k2; intros k2 Hk2).
  all: unfold py_contains, py_subscript, dict_mem; cbn [dict_get].
  all: try rewrite (no_upper_not_global_default k2 Hk2).
  all: split_eqb; try reflexivity.
Qed.

(** C6.  For every event type and optional sub-type, [get_best_practices]
    returns, without raising, the list the resolution order selects for
    the lower-cased keys: the (event type, sub-type) entry, else the
    (event type, "default") entry, else the global default list.  The
    list is never empty.  ("weather", "hurricane") gives the five-item
    hurricane list, ("weather", "blizzard") the weather default list,
    ("unknownType", none) the global default list, and
    ("WEATHER", "Hurricane") the same list as ("weather", "hurricane"). *)
Theorem C6_resolution_order (event_type : string)
        (sub_type : option string) :
  get_best_practices lower event_type sub_type =
    inr (Practices
           (resolve (lower event_type) (option_map lower sub_type))) /\
  resolve (lower event_type) (option_map lower sub_type) <> [] /\
  (get_best_practices lower "weather" (Some "hurricane") =
     inr (Practices weather_hurricane) /\
   List.length weather_hurricane = 5) /\
  get_best_practices lower "weather" (Some "blizzard") =
    inr (Practices weather_default) /\
  get_best_practices lower "unknownType" None =
    inr (Practices global_default) /\
  get_best_practices lower "WEATHER" (Some "Hurricane") =
    get_best_practices lower "weather" (Some "hurricane").
Proof.
  split; [apply get_best_practices_resolve|].
  split; [apply resolve_nonempty|].
  rewrite !get_best_practices_resolve. cbn [option_map].
  rewrite !lower_ascii by reflexivity.
  repeat split; reflexivity.
Qed.

(** C10.  When the event type lower-cases to "default", the entry the
    table holds for it is the global default list itself; neither the
    lower-cased sub-type nor "default" is an element of that list, so
    [get_best_practices] returns the global default list and raises
    nothing, whatever the sub-type. *)
Theorem C10_default_event_type (event_type : string)
        (sub_type : option string) :
  lower event_type = "default" ->
  table_subscript best_practices (lower event_type) =
    inr (Practices global_default) /\
  py_contains (lower (get_or sub_type EmptyString))
              (Practices global_default) = false /\
  py_contains "default" (Practices global_default) = false /\
  get_best_practices lower event_type sub_type =
    inr (Practices global_default).
Proof.
  intros Hk.
  assert (Hsub : py_contains (lower (get_or sub_type EmptyString))
                             (Practices global_default) = false)
    by apply no_upper_not_global_default, lower_no_upper.
  unfold get_best_practices. rewrite Hk.
  repeat split; auto.
  change (table_subscript best_practices "default")
    with (@inr exn _ (Practices global_default)).
  change (dict_mem "default" best_practices) with true. cbv iota.
  rewrite Hsub, andb_false_r. reflexivity.
Qed.

End BestPracticesFacts.

Lemma C6_resolution_order_witness :
  get_best_practices ascii_lower "Health" (Some "EPIDEMIC") =
    inr (Practices health_epidemic).
Proof.
  exact (proj1 (C6_resolution_order ascii_lower ascii_lower_no_upper
                  (fun s _ => eq_refl) "Health" (Some "EPIDEMIC"))).
Defined.

Lemma C10_default_event_type_witness :
  ascii_lower "DEFAULT" = "default" /\
  get_best_practices ascii_lower "DEFAULT" (Some "Hurricane") =
    inr (Practices global_default).
Proof.
  split; [reflexivity|].
  exact (proj2 (proj2 (proj2
           (C10_default_event_type ascii_lower ascii_lower_no_upper
              "DEFAULT" (Some "Hurricane") eq_refl)))).
Defined.

(** ** Searching a string *)

Lemma str_find_lower_bound c s : (-1 <= str_find c s)%Z.
Proof.
  induction s as [|c' r IH]; simpl; [lia|].
  destruct (Ascii.eqb c' c); [lia|].
  destruct (str_find c r <? 0)%Z eqn:E; [lia|].
  apply Z.ltb_ge in E. lia.
Qed.

(** [find] answers [-1] exactly when the character does not occur. *)
Lemma str_find_absent c s :
  str_find c s = (-1)%Z <-> ~ In c (list_ascii_of_string s).
Proof.
  induction s as [|c' r IH]; simpl; [tauto|].
  destruct (Ascii.eqb_spec c' c) as [->|Hne].
  - split; [discriminate|]. intros H. exfalso. apply H. now left.
  - pose proof (str_find_lower_bound c r) as Hlb.
    destruct (str_find c r <? 0)%Z eqn:E.
    + apply Z.ltb_lt in E. assert (Hm : str_find c r = (-1)%Z) by lia.
      split; [|reflexivity]. intros _ [H|H]; [congruence|].
      now apply IH in Hm.
    + apply Z.ltb_ge in E. split; [lia|]. intros H. exfalso.
      assert (Hm : str_find c r = (-1)%Z) by (apply IH; tauto). lia.
Qed.

Lemma str_rfind_lower_bound c s : (-1 <= str_rfind c s)%Z.
Proof.
  induction s as [|c' r IH]; simpl; [lia|].
  destruct (0 <=? str_rfind c r)%Z eqn:E.
  - apply Z.leb_le in E. lia.
  - destruct (Ascii.eqb c' c); lia.
Qed.

Lemma str_rfind_absent c s :
  str_rfind c s = (-1)%Z <-> ~ In c (list_ascii_of_string s).
Proof.
  induction s as [|c' r IH]; simpl; [tauto|].
  pose proof (str_rfind_lower_bound c r) as Hlb.
  destruct (0 <=? str_rfind c r)%Z eqn:E.
  - apply Z.leb_le in E. split; [lia|]. intros H. exfalso.
    assert (Hm : str_rfind c r = (-1)%Z) by (apply IH; tauto). lia.
  - apply Z.leb_gt in E. assert (Hm : str_rfind c r = (-1)%Z) by lia.
    apply IH in Hm.
    destruct (Ascii.eqb_spec c' c) as [->|Hne].
    + split; [discriminate|]. intros H. exfalso. apply H. now left.
    + split; [|reflexivity]. intros _ [H|H]; [congruence|tauto].
Qed.

(** ** The handler *)

Lemma py_ne_str_false v s : py_ne_str v s = false -> v = JStr s.
Proof.
  destruct v; simpl; try discriminate.
  intros H. apply negb_false_iff, String.eqb_eq in H. now subst.
Qed.

Section HandlerFacts.

Variable agent : string -> result string.
Variable json_loads : string -> result json.
Variable json_dumps : json -> string.
Variable py_repr : json -> string.

Let handler := lambda_handler agent json_loads json_dumps py_repr.
Let recommend' := recommend agent json_loads json_dumps py_repr.
Let prompt_for' := prompt_for json_dumps py_repr.
Let handler_except' := handler_except json_dumps.
Let recommend_result' :=
  recommend_result agent json_loads json_dumps py_repr.
Let recommend_calls' :=
  recommend_calls agent json_loads json_dumps py_repr.

Ltac run :=
  unfold handler, lambda_handler, try_except, handler_body, bind, log,
    lift, ret;
  cbn [py_get empty_trace logged agent_calls app].

(** The first validation fails. *)
Lemma reject_action d :
  py_ne_str (get_or (dict_get "action" d) JNull) action_name = true ->
  handler (JObj d) =
  (inr (bad_request json_dumps
          ("Unsupported action: "
             ++ py_str py_repr (get_or (dict_get "action" d) JNull))),
   received json_dumps (JObj d)).
Proof. intros H. run. unfold action_name in H. rewrite H. reflexivity. Qed.

(** Past the first validation, on an event whose context is a
    dictionary. *)
Lemma validated d c :
  py_ne_str (get_or (dict_get "action" d) JNull) action_name = false ->
  get_or (dict_get "context" d) (JObj []) = JObj c ->
  handler (JObj d) =
  if py_truthy (get_or (dict_get "currentAlert" c) (JObj [])) then
    try_except (recommend' (get_or (dict_get "currentAlert" c) (JObj [])))
               handler_except' (received json_dumps (JObj d))
  else (inr (bad_request json_dumps "Current alert data is required"),
        received json_dumps (JObj d)).
Proof.
  intros Ha Hc. run. unfold action_name in Ha. rewrite Ha, Hc. cbn.
  destruct (py_truthy _); reflexivity.
Qed.

(** The second half of the handler on a current alert that is a
    dictionary: the prompt is built and sent, whatever the trace. *)
Lemma recommend_obj a t :
  recommend' (JObj a) t =
  let t' := {| logged := logged t;
               agent_calls := agent_calls t ++ [prompt_for' a] |} in
  match agent (prompt_for' a) with
  | inl e => (inl e, t')
  | inr text =>
      match fst (extract_recommendations json_loads text t') with
      | inl e => (inl e, t')
      | inr v => (inr {| statusCode := 200; body := json_dumps v |}, t')
      end
  end.
Proof.
  unfold recommend', recommend, bind.
  change (build_prompt json_dumps py_repr (JObj a) t)
    with (@inr exn _ (prompt_for' a), t).
  unfold call_agent. cbv zeta. destruct (agent _); auto.
  unfold extract_recommendations, lift, ret.
  destruct (_ && _); simpl; auto.
Qed.

(** The response and the prompts of the second half do not depend on the
    trace it starts from. *)
Lemma recommend_frame ca t :
  fst (try_except (recommend' ca) handler_except' t) =
    recommend_result' ca /\
  agent_calls (snd (try_except (recommend' ca) handler_except' t)) =
    agent_calls t ++ recommend_calls' ca.
Proof.
  unfold recommend_result', recommend_result, recommend_calls',
    recommend_calls, try_except.
  destruct ca as [| | | | | |a];
    try (split; [reflexivity | simpl; now rewrite app_nil_r]).
  fold recommend'. rewrite !recommend_obj. cbv zeta.
  destruct (agent _) as [e|text]; [split; reflexivity|].
  unfold extract_recommendations, lift, ret.
  destruct (_ && _); simpl; [|split; reflexivity].
  destruct (json_loads _); split; reflexivity.
Qed.

(** At most one prompt is sent, and it is the prompt of the current
    alert. *)
Lemma recommend_calls_cases ca :
  recommend_calls' ca = [] \/
  exists a, ca = JObj a /\ recommend_calls' ca = [prompt_for' a].
Proof.
  destruct ca as [| | | | | |a]; try (left; reflexivity).
  right. exists a. split; auto.
  unfold recommend_calls', recommend_calls, try_except.
  fold recommend'. rewrite recommend_obj. cbv zeta.
  destruct (agent _) as [e|text]; [reflexivity|].
  destruct (fst _); reflexivity.
Qed.

(** Reading the recommendation neither reads nor changes the trace. *)
Lemma extract_frame text t :
  extract_recommendations json_loads text t =
  (fst (extract_recommendations json_loads text empty_trace), t).
Proof.
  unfold extract_recommendations, lift, ret. now destruct (_ && _).
Qed.

(** A validated request whose agent reply is [text]. *)
Lemma replied d c a text :
  dict_get "action" d = Some (JStr action_name) ->
  dict_get "context" d = Some (JObj c) ->
  dict_get "currentAlert" c = Some (JObj a) ->
  a <> [] ->
  agent (prompt_for' a) = inr text ->
  fst (handler (JObj d)) =
  match fst (extract_recommendations json_loads text empty_trace) with
  | inl e => inr (server_error json_dumps e)
  | inr v => inr {| statusCode := 200; body := json_dumps v |}
  end.
Proof.
  intros Ha Hc Hca Hne Hag.
  rewrite (validated d c) by (now rewrite ?Ha, ?Hc).
  rewrite Hca. cbn [get_or]. destruct a; [congruence|]. cbn [py_truthy].
  unfold try_except. rewrite recommend_obj. cbv zeta. rewrite Hag.
  rewrite extract_frame. cbn [fst].
  destruct (fst (extract_recommendations json_loads text empty_trace));
    reflexivity.
Qed.

(** The reply has no usable pair of braces: the fixed recommendation is
    returned with status 200. *)
Lemma fallback_without_braces d c a text :
  dict_get "action" d = Some (JStr action_name) ->
  dict_get "context" d = Some (JObj c) ->
  dict_get "currentAlert" c = Some (JObj a) ->
  a <> [] ->
  agent (prompt_for' a) = inr text ->
  (str_find "{" text < 0
   \/ str_rfind "}" text + 1 <= str_find "{" text)%Z ->
  fst (handler (JObj d)) =
  inr {| statusCode := 200;
         body := json_dumps fallback_recommendation |}.
Proof.
  intros Ha Hc Hca Hne Hag H0.
  rewrite (replied d c a text) by assumption.
  unfold extract_recommendations.
  replace (_ && _) with false; [reflexivity|].
  symmetry. apply andb_false_iff.
  rewrite Z.geb_leb, Z.gtb_ltb, Z.leb_gt, Z.ltb_ge. lia.
Qed.

(** In particular when the reply has no opening brace at all. *)
Lemma fallback_no_opening_brace d c a text :
dict_get "action" d = Some (JStr action_name) ->
dict_get "context" d = Some (JObj c) ->
dict_get "currentAlert" c = Some (JObj a) ->
a <> [] ->
agent (prompt_for' a) = inr text ->
~ In "{"%char (list_ascii_of_string text) ->
fst (handler (JObj d)) =
inr {| statusCode := 200;
       body := json_dumps fallback_recommendation |}.
Proof.
intros Ha Hc Hca Hne Hag Hno.
apply (fallback_without_braces d c a text); auto.
left. apply str_find_absent in Hno. lia.
Qed.

(** The handler never raises: the [except] clause turns every exception
    into a response. *)
Lemma lambda_handler_returns event :
exists r, fst (handler event) = inr r.
Proof.
unfold handler, lambda_handler, try_except.
destruct (handler_body _ _ _ _ _ _) as [[e|r] t].
- eexists. reflexivity.
- eexists. reflexivity.
Qed.

(** C1, on the code.  When the reply has a first opening brace before its
    last closing brace and [json.loads] raises on the text they enclose,
    the exception reaches the [except] clause: the handler answers with
    status 500 and the message of the exception, not with the fixed
    recommendation. *)
Theorem C1_parse_failure_is_500 d c a text e :
  dict_get "action" d = Some (JStr action_name) ->
  dict_get "context" d = Some (JObj c) ->
  dict_get "currentAlert" c = Some (JObj a) ->
  a <> [] ->
  agent (prompt_for' a) = inr text ->
  (0 <= str_find "{" text)%Z ->
  (str_find "{" text < str_rfind "}" text + 1)%Z ->
  json_loads (slice text (str_find "{" text) (str_rfind "}" text + 1))
    = inl e ->
  fst (handler (JObj d)) = inr (server_error json_dumps e) /\
  statusCode (server_error json_dumps e) = 500%Z.
Proof.
  intros Ha Hc Hca Hne Hag H0 H1 He. split; [|reflexivity].
  rewrite (replied d c a text) by assumption.
  unfold extract_recommendations.
  replace (_ && _) with true.
  - unfold lift. cbn [fst]. now rewrite He.
  - symmetry. apply andb_true_iff.
    split; [apply Z.geb_le | apply Z.gtb_lt]; lia.
Qed.

(** C2.  Two events with the same action whose contexts are dictionaries
    that agree on every key but [historicalAlerts] get the same response
    and send the same prompts; the prompt, when one is sent, is the one
    built from [currentAlert]. *)
Theorem C2_historical_alerts_unused d1 d2 c1 c2 :
  dict_get "action" d1 = dict_get "action" d2 ->
  dict_get "context" d1 = Some (JObj c1) ->
  dict_get "context" d2 = Some (JObj c2) ->
  (forall k, k <> "historicalAlerts" -> dict_get k c1 = dict_get k c2) ->
  fst (handler (JObj d1)) = fst (handler (JObj d2)) /\
  agent_calls (snd (handler (JObj d1))) =
    agent_calls (snd (handler (JObj d2))) /\
  (agent_calls (snd (handler (JObj d1))) = [] \/
   exists a, dict_get "currentAlert" c1 = Some (JObj a) /\
             agent_calls (snd (handler (JObj d1))) = [prompt_for' a]).
Proof.
  intros Hact H1 H2 Hsame.
  assert (Hca : dict_get "currentAlert" c1 = dict_get "currentAlert" c2)
    by (apply Hsame; discriminate).
  destruct (py_ne_str (get_or (dict_get "action" d1) JNull) action_name)
    eqn:E; pose proof E as E'; rewrite Hact in E'.
  - rewrite (reject_action d1 E), (reject_action d2 E'), Hact.
    simpl. auto.
  - rewrite (validated d1 c1 E), (validated d2 c2 E')
      by (now rewrite ?H1, ?H2).
    rewrite <- Hca.
    destruct (dict_get "currentAlert" c1) as [ca|] eqn:Eca;
      cbn [get_or]; [|simpl; auto].
    destruct (py_truthy ca) eqn:Et; [|simpl; auto].
    destruct (recommend_frame ca (received json_dumps (JObj d1)))
      as [-> ->].
    destruct (recommend_frame ca (received json_dumps (JObj d2)))
      as [-> ->].
    simpl. repeat split.
    destruct (recommend_calls_cases ca) as [->|(a & -> & ->)]; auto.
    right. exists a. auto.
Qed.


(** C9.  With the supported action and a context that holds a falsy
    [currentAlert] (the empty dictionary is one), the handler returns the
    status 400 response "Current alert data is required" without calling
    the agent: the response of an event whose context has no
    [currentAlert]. *)
Theorem C9_empty_current_alert d c ca d' c' :
  dict_get "action" d = Some (JStr action_name) ->
  dict_get "context" d = Some (JObj c) ->
  dict_get "currentAlert" c = Some ca ->
  ca = JObj [] \/ py_truthy ca = false ->
  dict_get "action" d' = Some (JStr action_name) ->
  dict_get "context" d' = Some (JObj c') ->
  dict_get "currentAlert" c' = None ->
  handler (JObj d) =
    (inr {| statusCode := 400;
            body := error_body json_dumps
                      "Current alert data is required" |},
     {| logged := [("INFO",
                    ("Received event: " ++ json_dumps (JObj d))%string)];
        agent_calls := [] |}) /\
  fst (handler (JObj d)) = fst (handler (JObj d')).
Proof.
  intros Ha Hc Hca Hfalsy Ha' Hc' Hca'.
  assert (Hf : py_truthy ca = false) by (destruct Hfalsy; now subst).
  rewrite (validated d c), (validated d' c')
    by (now rewrite ?Ha, ?Hc, ?Ha', ?Hc').
  rewrite Hca, Hca'. cbn [get_or]. rewrite Hf. simpl. auto.
Qed.

End HandlerFacts.

(** ** The handler on sample events *)

Lemma C1_parse_failure_is_500_witness :
  fst (run_scripted "Here you go: {oops}"
         (JObj (sample_event
                  (sample_context (JObj sample_alert) sample_historical)))) =
    inr (server_error json_dumps_ref (JSONDecodeError "Expecting value")) /\
  statusCode (server_error json_dumps_ref (JSONDecodeError "Expecting value"))
    = 500%Z.
Proof.
  apply (C1_parse_failure_is_500
           (scripted_agent "Here you go: {oops}")
           json_loads_ref json_dumps_ref py_repr_ref
           (sample_event
              (sample_context (JObj sample_alert) sample_historical))
           (sample_context (JObj sample_alert) sample_historical)
           sample_alert "Here you go: {oops}"
           (JSONDecodeError "Expecting value")).
  - reflexivity.
  - reflexivity.
  - reflexivity.
  - discriminate.
  - reflexivity.
  - vm_compute. discriminate.
  - reflexivity.
  - reflexivity.
Defined.

Lemma C2_historical_alerts_unused_witness :
  fst (run_scripted "no braces here"
         (JObj (sample_event
                  (sample_context (JObj sample_alert) sample_historical)))) =
  fst (run_scripted "no braces here"
         (JObj (sample_event
                  (sample_context (JObj sample_alert) (JArr []))))) /\
  agent_calls
    (snd (run_scripted "no braces here"
            (JObj (sample_event
                     (sample_context (JObj sample_alert)
                                     sample_historical))))) =
  agent_calls
    (snd (run_scripted "no braces here"
            (JObj (sample_event
                     (sample_context (JObj sample_alert) (JArr [])))))).
Proof.
  assert (Hsame : forall k, k <> "historicalAlerts" ->
            dict_get k (sample_context (JObj sample_alert) sample_historical)
            = dict_get k (sample_context (JObj sample_alert) (JArr []))).
  { intros k Hk. unfold sample_context. cbn [dict_get].
    destruct (String.eqb_spec "currentAlert" k); [reflexivity|].
    destruct (String.eqb_spec "historicalAlerts" k); [congruence|].
    reflexivity. }
  destruct (C2_historical_alerts_unused
              (scripted_agent "no braces here")
              json_loads_ref json_dumps_ref py_repr_ref
              (sample_event
                 (sample_context (JObj sample_alert) sample_historical))
              (sample_event (sample_context (JObj sample_alert) (JArr [])))
              (sample_context (JObj sample_alert) sample_historical)
              (sample_context (JObj sample_alert) (JArr []))
              eq_refl eq_refl eq_refl Hsame) as (Hresp & Hcalls & _).
  split; assumption.
Defined.


Lemma C9_empty_current_alert_witness :
  run_scripted "unused"
    (JObj (sample_event [ ("currentAlert", JObj []) ])) =
    (inr {| statusCode := 400;
            body := error_body json_dumps_ref
                      "Current alert data is required" |},
     {| logged :=
          [("INFO",
            ("Received event: "
               ++ json_dumps_ref
                    (JObj (sample_event [ ("currentAlert", JObj []) ])))
             %string)];
        agent_calls := [] |}) /\
  fst (run_scripted "unused"
         (JObj (sample_event [ ("currentAlert", JObj []) ]))) =
  fst (run_scripted "unused" (JObj (sample_event []))).
Proof.
  apply (C9_empty_current_alert (scripted_agent "unused")
           json_loads_ref json_dumps_ref py_repr_ref
           (sample_event [ ("currentAlert", JObj []) ])
           [ ("currentAlert", JObj []) ] (JObj [])
           (sample_event []) []).
  - reflexivity.
  - reflexivity.
  - reflexivity.
  - left. reflexivity.
  - reflexivity.
  - reflexivity.
  - reflexivity.
Defined.

(** A reply without braces: status 200 and the fixed recommendation. *)
Example reply_without_braces :
  fst (run_scripted "I cannot help with that."
         (JObj (sample_event
                  (sample_context (JObj sample_alert) sample_historical)))) =
  inr {| statusCode := 200;
         body := json_dumps_ref fallback_recommendation |}.
Proof. reflexivity. Qed.

(** A reply whose closing brace comes before its opening brace. *)
Example reply_with_braces_out_of_order :
  fst (run_scripted "} and {"
         (JObj (sample_event
                  (sample_context (JObj sample_alert) sample_historical)))) =
  inr {| statusCode := 200;
         body := json_dumps_ref fallback_recommendation |}.
Proof. reflexivity. Qed.

(** A reply with an embedded object: it is parsed and returned. *)
Example reply_with_object :
  fst (run_scripted
         ("blah {" ++ dq ++ "priorityLevel" ++ dq ++ ":" ++ dq ++ "high"
            ++ dq ++ "} trailing")%string
         (JObj (sample_event
                  (sample_context (JObj sample_alert) sample_historical)))) =
  inr {| statusCode := 200;
         body := json_dumps_ref (JObj [ ("priorityLevel", JStr "high") ]) |}.
Proof. reflexivity. Qed.

(** A current alert that is true but not a dictionary: the first [.get] of
    the prompt raises, and the handler answers 500 without a call. *)
Example current_alert_not_a_dictionary :
  run_scripted "unused"
    (JObj (sample_event (sample_context (JStr "storm") (JArr [])))) =
  (inr (server_error json_dumps_ref
          (AttributeError "'str' object has no attribute 'get'")),
   {| logged :=
        [("INFO",
          ("Received event: "
             ++ json_dumps_ref
                  (JObj (sample_event
                           (sample_context (JStr "storm") (JArr [])))))
           %string);
         ("ERROR",
          "Error generating recommendations: 'str' object has no attribute 'get'")];
      agent_calls := [] |}).
Proof. reflexivity. Qed.

(** ** The aggregator on sample records *)

(** With the reference [sum] and [/]: the severities 7, 8 and 0 of the
    three weather records have the mean 15 / 3, the float 5.0. *)
Example sample_analysis :
  analyze_historical_patterns py_sum_ref py_truediv_ref (Some sample_alerts) =
  inr {| patterns :=
           [ {| ps_eventType := "weather";
                count := 3;
                averageSeverity := 5%float;
                description :=
                  "Pattern of weather alerts identified with 3 occurrences"
             |} ];
         effective_actions :=
           [ mkEffectiveAction "shelter" "weather" 3 (95 # 100);
             mkEffectiveAction "radio" "weather" 2 (2 # 3);
             mkEffectiveAction "evacuate" "weather" 1 (1 # 3);
             mkEffectiveAction "call" "unknown" 1 (1 # 2) ] |}.
Proof. vm_compute. reflexivity. Qed.

(** Float additions round: the mean of the severities 0.1, 0.2 and 0.3
    is 0.20000000000000004 in this order and 0.19999999999999998 in the
    reverse order. *)
Example average_depends_on_order :
  analyze_historical_patterns py_sum_ref py_truediv_ref
                              (Some float_severities) =
    inr {| patterns :=
             [ pattern_summary "weather" 3 0x1.999999999999bp-3 ];
           effective_actions := [] |} /\
  analyze_historical_patterns py_sum_ref py_truediv_ref
                              (Some (rev float_severities)) =
    inr {| patterns :=
             [ pattern_summary "weather" 3 0x1.9999999999999p-3 ];
           effective_actions := [] |} /\
  PrimFloat.eqb 0x1.999999999999bp-3 0x1.9999999999999p-3 = false.
Proof. vm_compute. repeat split. Qed.

(** Float additions overflow: the mean of the severities 1e308, 1e308 and
    -1e308 is infinite in this order, and 3.333333333333333e+307 in the
    reverse order. *)
Example average_overflows_by_order :
  analyze_historical_patterns py_sum_ref py_truediv_ref
                              (Some large_severities) =
    inr {| patterns := [ pattern_summary "weather" 3 infinity ];
           effective_actions := [] |} /\
  analyze_historical_patterns py_sum_ref py_truediv_ref
                              (Some (rev large_severities)) =
    inr {| patterns :=
             [ pattern_summary "weather" 3 0x1.7bbef5d3a60d5p+1021 ];
           effective_actions := [] |}.
Proof. vm_compute. split; reflexivity. Qed.

(** The summary of the three weather records of the sample: the mean of
    7, 8 and 0 (the third record has no severity) is the float 5.0. *)
Lemma C4_pattern_summary_witness :
  python_mean py_sum_ref py_truediv_ref
              (map record_severity (partition_of "weather" sample_alerts))
    = inr 5%float /\
  exists out,
    analyze_historical_patterns py_sum_ref py_truediv_ref
                                (Some sample_alerts) = inr out /\
    emitted_patterns "weather" out =
      [ {| ps_eventType := "weather";
           count := 3;
           averageSeverity := 5%float;
           description :=
             "Pattern of weather alerts identified with 3 occurrences" |} ].
Proof.
  split; [vm_compute; reflexivity|].
  pose proof (C4_pattern_summary py_sum_ref py_truediv_ref
                sample_alerts "weather") as H.
  cbv zeta in H.
  destruct (analyze_historical_patterns py_sum_ref py_truediv_ref
              (Some sample_alerts)) as [e|out] eqn:E;
    [vm_compute in E; discriminate|].
  exists out. split; [reflexivity|].
  change (3 <=? List.length (partition_of "weather" sample_alerts))%nat
    with true in H.
  destruct H as [average [Hmean Hout]].
  assert (Ha : average = 5%float)
    by (vm_compute in Hmean; now injection Hmean).
  now rewrite Hout, Ha.
Defined.

(** C4, as the claim words it, fails on three records of one event type
    whose severity is the integer 10 ** 400.  The partition has three
    records and the sum of the severities is exact, 3 * 10 ** 400, but its
    quotient by 3 is too large for a float: the division of line 74 raises
    OverflowError, and the aggregator returns no PatternSummary at all. *)
Lemma C4_pattern_summary_counterexample :
  List.length (partition_of "weather" huge_severities) = 3 /\
  py_sum_ref (map record_severity (partition_of "weather" huge_severities))
    = inr (PyInt (3 * 10 ^ 400)) /\
  analyze_historical_patterns py_sum_ref py_truediv_ref
                              (Some huge_severities) =
    inl (OverflowError "integer division result too large for a float").
Proof. vm_compute. repeat split. Qed.

(* ===================================================================== *)
(** * Further properties                                                   *)
(* ===================================================================== *)

(** ** The aggregator: the shape of the output *)

Lemma In_first_seen x l : In x (first_seen l) <-> In x l.
Proof.
  induction l as [|y r IH]; simpl; [tauto|].
  rewrite filter_In, IH.
  destruct (String.eqb_spec x y) as [->|Hne]; simpl.
  - tauto.
  - split; [tauto|]. intros [H|H]; [congruence|]. right. split; auto.
Qed.

Lemma first_seen_snoc l x :
  first_seen (l ++ [x]) =
  if existsb (String.eqb x) l then first_seen l else first_seen l ++ [x].
Proof.
  induction l as [|y r IH]; simpl; auto.
  rewrite IH.
  destruct (String.eqb_spec x y) as [->|Hne]; simpl.
  - destruct (existsb (String.eqb y) r); auto.
    rewrite filter_app. simpl. rewrite String.eqb_refl. simpl.
    now rewrite app_nil_r.
  - destruct (existsb (String.eqb x) r); auto.
    rewrite filter_app. simpl.
    destruct (String.eqb_spec x y); [congruence|]. reflexivity.
Qed.

Lemma first_seen_NoDup l : NoDup (first_seen l).
Proof.
  induction l as [|y r IH]; simpl; constructor.
  - rewrite filter_In, String.eqb_refl. simpl. intros [_ H]. discriminate.
  - now apply NoDup_filter.
Qed.

Lemma dict_mem_keys {V} k (d : dict V) :
  dict_mem k d = existsb (String.eqb k) (map fst d).
Proof.
  unfold dict_mem. induction d as [|[k' v] r IH]; simpl; auto.
  rewrite (String.eqb_sym k k').
  destruct (String.eqb k' k); auto.
Qed.

Lemma existsb_first_seen x l :
  existsb (String.eqb x) (first_seen l) = existsb (String.eqb x) l.
Proof.
  apply eq_true_iff_eq. rewrite !existsb_exists.
  split; intros [y [Hy E]]; exists y; split; auto; now apply In_first_seen.
Qed.

(** The keys a loop of in-place updates leaves: the distinct keys it met, in order of first occurrence. *)
Lemma upd_loop_keys {A V} (key : A -> string) (init : V) (f : A -> V -> V) l :
  map fst (fold_left (fun acc a => dict_upd (key a) init (f a) acc) l []) =
  first_seen (map key l).
Proof.
  induction l as [|a l IH] using rev_ind; [reflexivity|].
  rewrite fold_left_app, map_app. simpl.
  rewrite dict_upd_keys, dict_mem_keys, IH, first_seen_snoc.
  now rewrite existsb_first_seen.
Qed.

Lemma dict_eq_lookup {V} (default : V) (d : dict V) :
  NoDup (map fst d) ->
  d = map (fun k => (k, get_or (dict_get k d) default)) (map fst d).
Proof.
  induction d as [|[k v] r IH]; simpl; auto.
  intros Hnd. inversion Hnd as [|? ? Hnotin Hnd']; subst.
  rewrite String.eqb_refl. simpl. f_equal.
  rewrite (IH Hnd') at 1. apply map_ext_in.
  intros k' Hk'. destruct (String.eqb_spec k k') as [->|]; [tauto|].
  reflexivity.
Qed.

Lemma alert_types_eq alerts :
  alert_types alerts =
  map (fun t => (t, partition_of t alerts)) (event_types alerts).
Proof.
  rewrite (dict_eq_lookup [] (alert_types alerts)) by apply alert_types_NoDup.
  unfold alert_types at 2, group_step.
  rewrite (upd_loop_keys event_type_of [] (fun a l => l ++ [a])).
  rewrite (map_ext event_type_of record_type event_type_of_spec).
  fold (event_types alerts).
  apply map_ext. intros t. rewrite alert_types_get.
  now destruct (partition_of t alerts).
Qed.

Lemma actions_count_eq type_alerts :
  actions_count type_alerts =
  map (fun a =>
         (a, count_occ string_dec (flat_map record_actions type_alerts) a))
      (first_seen (flat_map record_actions type_alerts)).
Proof.
  pose proof (actions_count_ok type_alerts) as (Hnd & Hcnt & Hall & _).
  rewrite (dict_eq_lookup 0 (actions_count type_alerts)) by assumption.
  unfold actions_count at 2. rewrite count_loop_flat. unfold count_step.
  rewrite (upd_loop_keys (fun a : string => a) 0 (fun _ => S)), map_id.
  apply map_ext_in. intros a Ha. f_equal.
  apply In_first_seen, Hall in Ha.
  apply in_map_iff in Ha as [[a' n] [Heq Hin]]. simpl in Heq. subst a'.
  rewrite (In_dict_get _ _ _ Hnd Hin). simpl. now apply Hcnt in Hin.
Qed.

Section OutputShape.

Variable py_sum : list number -> result number.
Variable py_truediv : number -> nat -> result float.

Lemma analyze_by_type alerts :
  analyze_historical_patterns py_sum py_truediv (Some alerts) =
  match
    collect (fun t => group_patterns py_sum py_truediv t
                                     (partition_of t alerts))
            (event_types alerts)
  with
  | inl e => inl e
  | inr summaries =>
      inr {| patterns := summaries;
             effective_actions :=
               flat_map (fun t => group_actions t (partition_of t alerts))
                        (event_types alerts) |}
  end.
Proof.
  rewrite analyze_some, analyze_groups_eq, alert_types_eq, collect_map.
  rewrite !flat_map_concat_map, !map_map. reflexivity.
Qed.

(** X1.  The output is assembled event type by event type, in the order
    the types first appear in the input: [patterns] and [effective_actions]
    are the concatenations of the entries each partition produces, and the
    aggregator raises the first exception a partition raises. *)
Theorem X1_output_by_event_type alerts :
  analyze_historical_patterns py_sum py_truediv (Some alerts) =
  match
    collect (fun t => group_patterns py_sum py_truediv t
                                     (partition_of t alerts))
            (event_types alerts)
  with
  | inl e => inl e
  | inr summaries =>
      inr {| patterns := summaries;
             effective_actions :=
               flat_map (fun t => group_actions t (partition_of t alerts))
                        (event_types alerts) |}
  end.
Proof. apply analyze_by_type. Qed.

End OutputShape.

(** X2.  The tally of a partition lists each distinct action once, in the
    order the actions are first met, with its number of occurrences. *)
Theorem X2_tally_of_a_partition alerts t :
  actions_count (partition_of t alerts) =
  map (fun a => (a, tally t alerts a)) (first_seen (encounter t alerts)).
Proof. apply actions_count_eq. Qed.

Lemma list_sum_cons x l : list_sum (x :: l) = x + list_sum l.
Proof. reflexivity. Qed.

Lemma partition_sizes_cons ts a alerts :
  NoDup ts ->
  list_sum (map (fun t => List.length (partition_of t (a :: alerts))) ts) =
  (if existsb (String.eqb (record_type a)) ts then 1 else 0)
  + list_sum (map (fun t => List.length (partition_of t alerts)) ts).
Proof.
  induction ts as [|t ts IH]; intros Hnd; [reflexivity|].
  inversion Hnd as [|? ? Hnotin Hnd']; subst.
  cbn [map existsb]. rewrite !list_sum_cons, (IH Hnd'), partition_of_cons.
  destruct (String.eqb_spec (record_type a) t) as [E|E]; cbn [orb].
  - assert (Hf : existsb (String.eqb (record_type a)) ts = false).
    { apply not_true_is_false. rewrite existsb_exists.
      intros [y [Hy Ey]]. apply String.eqb_eq in Ey. congruence. }
    rewrite Hf. simpl. lia.
  - lia.
Qed.

Lemma partition_sizes alerts :
  list_sum (map (fun t => List.length (partition_of t alerts)) (event_types alerts))
  = List.length alerts.
Proof.
  assert (H : forall l ts, NoDup ts ->
            (forall a, In a l -> In (record_type a) ts) ->
            list_sum (map (fun t => List.length (partition_of t l)) ts)
            = List.length l).
  { induction l as [|a l IH]; intros ts Hnd Hin.
    - clear. induction ts; simpl; auto.
    - rewrite partition_sizes_cons by assumption.
      rewrite IH by (auto; intros; apply Hin; now right).
      replace (existsb _ ts) with true; [reflexivity|].
      symmetry. apply existsb_exists. exists (record_type a).
      split; [apply Hin; now left | apply String.eqb_refl]. }
  apply H; [apply first_seen_NoDup|].
  intros a Ha. apply In_first_seen. now apply in_map.
Qed.

Lemma event_types_length alerts :
  List.length (event_types alerts) <= List.length alerts.
Proof.
  rewrite <- (partition_sizes alerts).
  assert (H : forall t, In t (event_types alerts) ->
                        1 <= List.length (partition_of t alerts)).
  { intros t Ht. apply In_first_seen, in_map_iff in Ht as [a [<- Ha]].
    assert (Hin : In a (partition_of (record_type a) alerts)).
    { apply filter_In. split; auto. apply String.eqb_refl. }
    destruct (partition_of _ alerts); [destruct Hin | simpl; lia]. }
  revert H. generalize (event_types alerts) as ts.
  induction ts as [|t ts IH]; intros H; simpl; auto.
  specialize (H t (or_introl eq_refl)) as Ht.
  assert (IH' := IH (fun t' Ht' => H t' (or_intror Ht'))). lia.
Qed.

Section OutputSize.

Variable py_sum : list number -> result number.
Variable py_truediv : number -> nat -> result float.

Lemma group_patterns_length t (part : list alert) xs :
  group_patterns py_sum py_truediv t part = inr xs ->
  3 * List.length xs <= List.length part.
Proof.
  rewrite group_patterns_spec.
  destruct (3 <=? List.length part)%nat eqn:E.
  - apply Nat.leb_le in E.
    destruct (python_mean _ _ _) as [e|average]; [discriminate|].
    intros [= <-]. simpl. lia.
  - intros [= <-]. simpl. lia.
Qed.

Lemma patterns_length alerts ts : forall summaries,
  collect (fun t => group_patterns py_sum py_truediv t
                                   (partition_of t alerts)) ts
    = inr summaries ->
  3 * List.length summaries
    <= list_sum (map (fun t => List.length (partition_of t alerts)) ts).
Proof.
  induction ts as [|t ts IH]; cbn [collect map]; intros summaries.
  - intros [= <-]. simpl. lia.
  - destruct (group_patterns _ _ t _) as [e|xs] eqn:Et; [discriminate|].
    destruct (collect _ ts) as [e|ys]; [discriminate|].
    intros [= <-]. specialize (IH ys eq_refl).
    apply group_patterns_length in Et.
    rewrite length_app, list_sum_cons. lia.
Qed.

(** X3.  Sizes of the output, when the aggregator returns: three times the
    number of pattern summaries is at most the number of input records, and
    there are at most three effective actions per event type of the
    input. *)
Theorem X3_output_size alerts :
  match analyze_historical_patterns py_sum py_truediv (Some alerts) with
  | inr out =>
      3 * List.length (patterns out) <= List.length alerts /\
      List.length (effective_actions out)
        <= 3 * List.length (event_types alerts) /\
      List.length (event_types alerts) <= List.length alerts
  | inl e => mean_raises py_sum py_truediv alerts e
  end.
Proof.
  destruct (analyze_historical_patterns _ _ (Some alerts)) as [e|out] eqn:Eout;
    [now apply analyze_raises|].
  rewrite analyze_by_type in Eout.
  destruct (collect _ (event_types alerts)) as [e|summaries] eqn:Ec;
    [discriminate|].
  injection Eout as <-. cbn [patterns effective_actions].
  split; [|split; [|apply event_types_length]].
  - rewrite <- (partition_sizes alerts). now apply patterns_length.
  - generalize (event_types alerts) as ts.
    induction ts as [|t ts IH]; [simpl; lia|].
    cbn [flat_map]. rewrite length_app.
    assert (List.length (group_actions t (partition_of t alerts)) <= 3).
    { unfold group_actions. rewrite length_map. apply firstn_le_length. }
    cbn [List.length]. lia.
Qed.

End OutputSize.

Lemma ratio_pos n m : 0 < n -> 0 < m -> (0 < ratio n m)%Q.
Proof.
  intros Hn Hm. unfold ratio. apply Qlt_shift_div_l.
  - change 0%Q with (inject_Z 0). rewrite <- Zlt_Qlt. lia.
  - rewrite Qmult_0_l. change 0%Q with (inject_Z 0). rewrite <- Zlt_Qlt. lia.
Qed.

Lemma count_occ_le_length (l : list string) x :
  count_occ string_dec l x <= List.length l.
Proof.
  induction l as [|y r IH]; simpl; auto.
  destruct (string_dec y x); lia.
Qed.

Lemma partition_of_In t alerts a :
  In a (partition_of t alerts) -> In a alerts /\ record_type a = t.
Proof.
  unfold partition_of. rewrite filter_In, String.eqb_eq. tauto.
Qed.

Lemma encounter_event_type t alerts x :
  In x (encounter t alerts) -> In t (map record_type alerts).
Proof.
  unfold encounter. rewrite in_flat_map. intros [a [Ha _]].
  apply partition_of_In in Ha as [Ha <-]. now apply in_map.
Qed.

Section OutputEntries.

Variable py_sum : list number -> result number.
Variable py_truediv : number -> nat -> result float.

(** X4.  When the aggregator returns, every entry of the output refers to
    the input: an effective action names an event type of the input and an
    action of that type's partition, its frequency is at least 1 and at
    most the number of action strings of the partition, and its confidence
    is positive; a pattern summary names an event type of the input and
    counts between 3 and the number of input records. *)
Theorem X4_entries_refer_to_input (input : option (list alert)) :
  let alerts := get_or input [] in
  match analyze_historical_patterns py_sum py_truediv input with
  | inr out =>
      Forall (fun e =>
                In (ea_eventType e) (map record_type alerts) /\
                In (ea_action e) (encounter (ea_eventType e) alerts) /\
                1 <= frequency e
                  <= List.length (encounter (ea_eventType e) alerts) /\
                (0 < confidence e)%Q)
             (effective_actions out) /\
      Forall (fun p =>
                In (ps_eventType p) (map record_type alerts) /\
                3 <= count p <= List.length alerts)
             (patterns out)
  | inl e => mean_raises py_sum py_truediv alerts e
  end.
Proof.
  destruct input as [alerts|]; [cbn [get_or]|split; constructor].
  destruct (analyze_historical_patterns _ _ (Some alerts)) as [e|out] eqn:Eout;
    [now apply analyze_raises|].
  split; rewrite Forall_forall.
  - intros e He. apply effective_in_emitted in He.
    rewrite (emitted_actions_eq _ _ _ _ _ Eout) in He.
    pose proof (actions_count_ok (partition_of (ea_eventType e) alerts)) as Hok.
    destruct (top_three _ _ Hok) as (_ & _ & Hsub & _).
    destruct Hok as (_ & Hcnt & _ & _).
    unfold group_actions in He.
    apply in_map_iff in He as [[a n] [Heq Hin]].
    apply Hsub, Hcnt in Hin as [Henc Hn].
    fold (encounter (ea_eventType e) alerts) in Henc, Hn.
    assert (Ha : ea_action e = a) by now rewrite <- Heq.
    assert (Hf : frequency e = n) by now rewrite <- Heq.
    assert (Hc : confidence e =
                 Qmin (ratio n (List.length
                                  (partition_of (ea_eventType e) alerts)))
                      (95 # 100)) by now rewrite <- Heq.
    assert (Hpos : 1 <= n).
    { subst n. apply (count_occ_In string_dec) in Henc. lia. }
    rewrite Ha, Hf, Hc.
    split; [now apply (encounter_event_type _ _ a)|].
    split; [assumption|]. split.
    + split; auto. subst n. apply count_occ_le_length.
    + apply Q.min_glb_lt; [|reflexivity].
      apply ratio_pos; [lia|].
      unfold encounter in Henc.
      destruct (partition_of (ea_eventType e) alerts); [destruct Henc|].
      simpl. lia.
  - intros p Hp.
    assert (Hin : In p (emitted_patterns (ps_eventType p) out)).
    { apply filter_In. split; auto. apply String.eqb_refl. }
    pose proof (emitted_patterns_eq _ _ (ps_eventType p) _ _ Eout) as Hg.
    rewrite group_patterns_spec in Hg.
    destruct (3 <=? _)%nat eqn:E.
    + apply Nat.leb_le in E.
      destruct (python_mean _ _ _) as [e|average]; [discriminate|].
      injection Hg as Hg. rewrite <- Hg in Hin. destruct Hin as [Heq|[]].
      assert (Hc : count p =
                   List.length (partition_of (ps_eventType p) alerts))
        by now rewrite <- Heq.
      rewrite Hc. split; [|split; auto].
      * destruct (partition_of (ps_eventType p) alerts) as [|a r] eqn:Ep;
          [simpl in E; lia|].
        assert (Ha : In a (partition_of (ps_eventType p) alerts))
          by (rewrite Ep; now left).
        apply partition_of_In in Ha as [Ha <-]. now apply in_map.
      * unfold partition_of. apply filter_length_le.
    + injection Hg as Hg. rewrite <- Hg in Hin. destruct Hin.
Qed.

End OutputEntries.

(** ** The aggregator: the order of the input *)

Lemma Permutation_filter {A} (p : A -> bool) l l' :
  Permutation l l' -> Permutation (filter p l) (filter p l').
Proof.
  induction 1 as [|x l l' _ IH|x y l|l l' l'' _ IH1 _ IH2]; simpl.
  - constructor.
  - destruct (p x); auto.
  - destruct (p x), (p y); auto. apply perm_swap.
  - now transitivity (filter p l').
Qed.

Lemma encounter_Permutation t alerts alerts' :
  Permutation alerts alerts' ->
  Permutation (encounter t alerts) (encounter t alerts').
Proof.
  intros H. unfold encounter, partition_of.
  now apply Permutation_flat_map, Permutation_filter.
Qed.

Lemma tally_ok_In enc d a n :
  tally_ok enc d ->
  In (a, n) d <-> In a enc /\ n = count_occ string_dec enc a.
Proof.
  intros (Hnd & Hcnt & Hall & _). split; [apply Hcnt|].
  intros [Ha ->]. apply Hall, in_map_iff in Ha as [[a' n] [Heq Hin]].
  simpl in Heq. subst a'. pose proof (Hcnt _ _ Hin) as [_ ->]. exact Hin.
Qed.

Lemma NoDup_keys {V} (d : dict V) : NoDup (map fst d) -> NoDup d.
Proof. apply NoDup_map_inv. Qed.

Lemma tally_Permutation enc enc' d d' :
  Permutation enc enc' -> tally_ok enc d -> tally_ok enc' d' ->
  Permutation d d'.
Proof.
  intros Hp Hd Hd'.
  apply NoDup_Permutation.
  - apply NoDup_keys, Hd.
  - apply NoDup_keys, Hd'.
  - intros [a n]. rewrite (tally_ok_In _ _ _ _ Hd), (tally_ok_In _ _ _ _ Hd').
    rewrite (Permutation_count_occ string_dec) in Hp.
    rewrite (Hp a). split; intros [Ha Hn]; split; auto.
    + eapply Permutation_in; [|exact Ha].
      now apply (Permutation_count_occ string_dec).
    + eapply Permutation_in; [|exact Ha].
      apply Permutation_sym. now apply (Permutation_count_occ string_dec).
Qed.

Lemma insert_desc_counts x l :
  StronglySorted (fun a b => snd b <= snd a) l ->
  StronglySorted (fun a b => snd b <= snd a) (insert_desc x l).
Proof.
  induction l as [|y r IH]; intros Hs; simpl.
  - repeat constructor.
  - inversion Hs as [|? ? Hs' Hall]; subst.
    rewrite Forall_forall in Hall.
    destruct (snd x <? snd y)%nat eqn:E.
    + apply Nat.ltb_lt in E. constructor; auto.
      rewrite Forall_forall. intros z Hz.
      apply (Permutation_in _ (insert_desc_perm x r)) in Hz.
      destruct Hz as [<-|Hz]; [lia | auto].
    + apply Nat.ltb_ge in E. constructor; auto.
      rewrite Forall_forall. intros z [<-|Hz]; auto.
      specialize (Hall z Hz). lia.
Qed.

Lemma sorted_desc_counts l :
  StronglySorted (fun a b => snd b <= snd a) (sorted_desc l).
Proof.
  induction l as [|x r IH]; simpl; [constructor|].
  now apply insert_desc_counts.
Qed.

(** Two descending lists with the same elements are the same list. *)
Lemma descending_unique (l l' : list nat) :
  Permutation l l' ->
  StronglySorted ge l -> StronglySorted ge l' -> l = l'.
Proof.
  revert l'. induction l as [|x r IH]; intros l' Hp Hs Hs'.
  - apply Permutation_nil in Hp. now subst.
  - destruct l' as [|y r'].
    + apply Permutation_sym, Permutation_nil in Hp. discriminate.
    + inversion Hs as [|? ? Hsr Hx]; subst.
      inversion Hs' as [|? ? Hsr' Hy]; subst.
      rewrite Forall_forall in Hx, Hy.
      assert (Hxy : x = y).
      { assert (H1 : In x (y :: r'))
          by (eapply Permutation_in; [exact Hp | now left]).
        assert (H2 : In y (x :: r))
          by (eapply Permutation_in;
              [apply Permutation_sym; exact Hp | now left]).
        destruct H1 as [H1|H1]; [auto|]. destruct H2 as [H2|H2]; [auto|].
        specialize (Hx _ H2). specialize (Hy _ H1). lia. }
      subst y. f_equal. apply IH; auto.
      now apply Permutation_cons_inv in Hp.
Qed.

Lemma top_counts_Permutation d d' :
  Permutation d d' ->
  map snd (sorted_desc d) = map snd (sorted_desc d').
Proof.
  intros Hp. apply descending_unique.
  - apply Permutation_map.
    rewrite (sorted_desc_perm d), (sorted_desc_perm d'). exact Hp.
  - apply (proj1 (StronglySorted_map snd ge _)).
    eapply StronglySorted_In_impl; [|apply sorted_desc_counts].
    intros a b _ _ H. exact H.
  - apply (proj1 (StronglySorted_map snd ge _)).
    eapply StronglySorted_In_impl; [|apply sorted_desc_counts].
    intros a b _ _ H. exact H.
Qed.

Section InputOrder.

Variable py_sum : list number -> result number.
Variable py_truediv : number -> nat -> result float.

(** X5.  Reordering the input records changes neither the frequencies and
    confidences emitted for an event type, nor the event type, the count
    and the description of its pattern summary, when the aggregator returns
    for both orders.  (The average severity is left out: the sum of floats
    depends on their order.) *)
Theorem X5_order_independent alerts alerts' t out out' :
  Permutation alerts alerts' ->
  analyze_historical_patterns py_sum py_truediv (Some alerts) = inr out ->
  analyze_historical_patterns py_sum py_truediv (Some alerts') = inr out' ->
  map frequency (emitted_actions t out) =
    map frequency (emitted_actions t out') /\
  map confidence (emitted_actions t out) =
    map confidence (emitted_actions t out') /\
  Forall2 (fun p p' =>
             ps_eventType p = ps_eventType p' /\
             count p = count p' /\
             description p = description p')
          (emitted_patterns t out) (emitted_patterns t out').
Proof.
  intros Hp Eout Eout'.
  rewrite (emitted_actions_eq _ _ _ _ _ Eout).
  rewrite (emitted_actions_eq _ _ _ _ _ Eout').
  pose proof (emitted_patterns_eq _ _ t _ _ Eout) as Hg.
  pose proof (emitted_patterns_eq _ _ t _ _ Eout') as Hg'.
  assert (Hpart : Permutation (partition_of t alerts) (partition_of t alerts'))
    by now apply Permutation_filter.
  assert (Hlen : List.length (partition_of t alerts) =
                 List.length (partition_of t alerts'))
    by now apply Permutation_length.
  assert (Htop : map snd (firstn 3 (top_actions (partition_of t alerts))) =
                 map snd (firstn 3 (top_actions (partition_of t alerts')))).
  { rewrite <- !firstn_map. f_equal. apply top_counts_Permutation.
    eapply tally_Permutation; [|apply actions_count_ok..].
    now apply Permutation_flat_map. }
  split; [|split].
  - unfold group_actions. rewrite !map_map. exact Htop.
  - unfold group_actions. rewrite !map_map, Hlen.
    change (fun x => confidence (effective_action t ?n x))
      with (fun x : string * nat => Qmin (ratio (snd x) n) (95 # 100)).
    rewrite <- !(map_map snd (fun n => Qmin (ratio n _) (95 # 100))).
    now rewrite Htop.
  - rewrite group_patterns_spec in Hg, Hg'. rewrite Hlen in Hg.
    destruct (3 <=? _)%nat.
    + destruct (python_mean _ _ (map _ (partition_of t alerts)))
        as [e|average]; [discriminate|].
      destruct (python_mean _ _ (map _ (partition_of t alerts')))
        as [e|average']; [discriminate|].
      injection Hg as <-. injection Hg' as <-.
      constructor; [|constructor]. repeat split.
    + injection Hg as <-. injection Hg' as <-. constructor.
Qed.

(** X6.  Which actions are emitted does depend on the order of the input:
    there are two orderings of the same records, for both of which the
    aggregator returns, and an action that is emitted in one and not in the
    other. *)
Theorem X6_order_sensitive :
  exists alerts alerts' t action out out',
    Permutation alerts alerts' /\
    analyze_historical_patterns py_sum py_truediv (Some alerts) = inr out /\
    analyze_historical_patterns py_sum py_truediv (Some alerts') = inr out' /\
    In action (map ea_action (emitted_actions t out)) /\
    ~ In action (map ea_action (emitted_actions t out')).
Proof.
  exists four_actions, (rev four_actions), "weather", "b".
  eexists. eexists.
  split; [apply Permutation_rev|].
  split; [reflexivity|]. split; [reflexivity|]. split.
  - simpl. auto.
  - simpl. intros [H|[H|[H|[]]]]; discriminate.
Qed.

End InputOrder.

Lemma X5_order_independent_witness :
  exists out out',
    analyze_historical_patterns py_sum_ref py_truediv_ref
                                (Some sample_alerts) = inr out /\
    analyze_historical_patterns py_sum_ref py_truediv_ref
                                (Some (rev sample_alerts)) = inr out' /\
    map frequency (emitted_actions "weather" out) =
      map frequency (emitted_actions "weather" out').
Proof.
  eexists. eexists. split; [vm_compute; reflexivity|].
  split; [vm_compute; reflexivity|].
  exact (proj1 (X5_order_independent py_sum_ref py_truediv_ref
                  sample_alerts (rev sample_alerts) "weather" _ _
                  (Permutation_rev sample_alerts) eq_refl eq_refl)).
Defined.

(** ** The best-practices lookup: further properties *)

Lemma resolve_in_table k st : In (resolve k st) all_practices.
Proof.
  unfold resolve, table_entry, all_practices.
  destruct st as [s|]; split_eqb; simpl; tauto.
Qed.

Lemma all_practices_length l :
  In l all_practices -> 5 <= List.length l <= 6.
Proof.
  unfold all_practices. simpl.
  intros H. repeat (destruct H as [<-|H]; [simpl; lia|]). destruct H.
Qed.

Section BestPracticesMore.

Variable lower : string -> string.
Hypothesis lower_no_upper :
  forall s, string_forallb (fun c => negb (is_upper c)) (lower s) = true.
Hypothesis lower_ascii :
  forall s, string_forallb is_ascii s = true -> lower s = ascii_lower s.

(** X7.  The lookup is case-insensitive on both keys: two calls whose event
    types have the same lower case, and whose sub-types are both absent or
    have the same lower case, return the same list. *)
Theorem X7_case_insensitive et et' st st' :
  lower et = lower et' ->
  option_map lower st = option_map lower st' ->
  get_best_practices lower et st = get_best_practices lower et' st'.
Proof.
  intros He Hs.
  rewrite !(get_best_practices_resolve lower lower_no_upper lower_ascii).
  now rewrite He, Hs.
Qed.

(** X8.  Whatever the arguments, the lookup returns one of the nine lists of
    the table, of five or six items. *)
Theorem X8_result_is_a_table_list et st :
  exists l, get_best_practices lower et st = inr (Practices l) /\
            In l all_practices /\ 5 <= List.length l <= 6.
Proof.
  rewrite (get_best_practices_resolve lower lower_no_upper lower_ascii).
  eexists. split; [reflexivity|].
  split; [apply resolve_in_table
         | apply all_practices_length, resolve_in_table].
Qed.

(** X9.  A sub-type that is the empty string, that lower-cases to "default",
    or that the table does not list under the event type, gives the list
    returned when no sub-type is passed. *)
Theorem X9_sub_type_fallback et st :
  st = EmptyString \/ lower st = "default" \/
  table_entry (lower et) (lower st) = None ->
  get_best_practices lower et (Some st) = get_best_practices lower et None.
Proof.
  intros H.
  rewrite !(get_best_practices_resolve lower lower_no_upper lower_ascii).
  f_equal. f_equal. unfold resolve. cbn [option_map].
  destruct H as [-> | [-> | ->]]; auto.
  - rewrite (lower_empty lower lower_ascii).
    unfold table_entry. split_eqb; reflexivity.
  - unfold table_entry. split_eqb; reflexivity.
Qed.

(** X10.  For an event type that lower-cases to none of "weather",
    "earthquake", "health" and "security", the sub-type is ignored and the
    global default list is returned. *)
Theorem X10_unknown_event_type et st :
  ~ In (lower et) ["weather"; "earthquake"; "health"; "security"] ->
  get_best_practices lower et st = inr (Practices global_default).
Proof.
  intros H.
  rewrite (get_best_practices_resolve lower lower_no_upper lower_ascii).
  f_equal. f_equal. unfold resolve, table_entry.
  simpl in H.
  destruct st; split_eqb; try reflexivity; exfalso; apply H; auto.
Qed.

End BestPracticesMore.

Lemma X7_case_insensitive_witness :
  get_best_practices ascii_lower "Weather" (Some "FLOOD") =
  get_best_practices ascii_lower "WEATHER" (Some "flood").
Proof.
  exact (X7_case_insensitive ascii_lower ascii_lower_no_upper
           (fun s _ => eq_refl) "Weather" "WEATHER" (Some "FLOOD")
           (Some "flood") eq_refl eq_refl).
Defined.

Lemma X8_result_is_a_table_list_witness :
  exists l, get_best_practices ascii_lower "health" (Some "Epidemic")
            = inr (Practices l) /\
            In l all_practices /\ 5 <= List.length l <= 6.
Proof.
  exact (X8_result_is_a_table_list ascii_lower ascii_lower_no_upper
           (fun s _ => eq_refl) "health" (Some "Epidemic")).
Defined.

Lemma X9_sub_type_fallback_witness :
  get_best_practices ascii_lower "weather" (Some "Blizzard") =
  get_best_practices ascii_lower "weather" None.
Proof.
  apply (X9_sub_type_fallback ascii_lower ascii_lower_no_upper
           (fun s _ => eq_refl) "weather" "Blizzard").
  right. right. reflexivity.
Defined.

Lemma X10_unknown_event_type_witness :
  get_best_practices ascii_lower "Volcano" (Some "hurricane") =
  inr (Practices global_default).
Proof.
  apply (X10_unknown_event_type ascii_lower ascii_lower_no_upper
           (fun s _ => eq_refl) "Volcano" (Some "hurricane")).
  simpl. intros [H|[H|[H|[H|[]]]]]; discriminate.
Defined.

(** ** The braces of a reply *)

Lemma occurs_cons c c' s : occurs c (String c' s) <-> c' = c \/ occurs c s.
Proof. reflexivity. Qed.

Lemma occurs_app c s s' :
  occurs c (s ++ s')%string <-> occurs c s \/ occurs c s'.
Proof.
  induction s as [|x r IH]; simpl.
  - unfold occurs at 2. simpl. tauto.
  - rewrite !occurs_cons, IH. tauto.
Qed.

Lemma string_app_length s s' :
  String.length (s ++ s')%string = String.length s + String.length s'.
Proof. induction s; simpl; auto. Qed.

Lemma str_find_app c pre post :
  ~ occurs c pre ->
  str_find c (pre ++ String c post)%string = Z.of_nat (String.length pre).
Proof.
  induction pre as [|x r IH]; intros Hno.
  - simpl. now rewrite Ascii.eqb_refl.
  - rewrite occurs_cons in Hno. cbn [append str_find].
    destruct (Ascii.eqb_spec x c) as [->|Hne]; [tauto|].
    rewrite IH by tauto.
    destruct (Z.ltb_spec (Z.of_nat (String.length r)) 0); [lia|].
    cbn [String.length]. lia.
Qed.

Lemma str_find_split c s :
  (0 <= str_find c s)%Z ->
  exists pre post,
    s = (pre ++ String c post)%string /\ ~ occurs c pre /\
    str_find c s = Z.of_nat (String.length pre).
Proof.
  induction s as [|x r IH]; cbn [str_find]; [lia|].
  destruct (Ascii.eqb_spec x c) as [->|Hne].
  - intros _. exists EmptyString, r. repeat split. intros [].
  - destruct (Z.ltb_spec (str_find c r) 0); [lia|]. intros _.
    destruct IH as (pre & post & -> & Hno & Hi); [lia|].
    exists (String x pre), post. repeat split.
    + rewrite occurs_cons. tauto.
    + rewrite Hi. cbn [String.length]. lia.
Qed.

Lemma str_rfind_app c pre post :
  ~ occurs c post ->
  str_rfind c (pre ++ String c post)%string = Z.of_nat (String.length pre).
Proof.
  intros Hno. apply str_rfind_absent in Hno.
  induction pre as [|x r IH].
  - cbn [append str_rfind String.length]. rewrite Hno. simpl.
    now rewrite Ascii.eqb_refl.
  - cbn [append str_rfind]. rewrite IH.
    destruct (Z.leb_spec 0 (Z.of_nat (String.length r))); [|lia].
    cbn [String.length]. lia.
Qed.

Lemma str_rfind_split c s :
  (0 <= str_rfind c s)%Z ->
  exists pre post,
    s = (pre ++ String c post)%string /\ ~ occurs c post /\
    str_rfind c s = Z.of_nat (String.length pre).
Proof.
  induction s as [|x r IH]; cbn [str_rfind]; [lia|].
  destruct (Z.leb_spec 0 (str_rfind c r)) as [Hr|Hr].
  - intros _. destruct (IH Hr) as (pre & post & -> & Hno & Hi).
    exists (String x pre), post. repeat split; auto.
    rewrite Hi. cbn [String.length]. lia.
  - destruct (Ascii.eqb_spec x c) as [->|Hne]; [|lia]. intros _.
    exists EmptyString, r. repeat split.
    apply str_rfind_absent. pose proof (str_rfind_lower_bound c r). lia.
Qed.

Lemma substring_skip pre s n :
  substring (String.length pre) n (pre ++ s)%string = substring 0 n s.
Proof. induction pre; simpl; auto. Qed.

Lemma substring_prefix s s' :
  substring 0 (String.length s) (s ++ s')%string = s.
Proof.
  induction s as [|x r IH]; simpl.
  - now destruct s'.
  - now rewrite IH.
Qed.

Lemma string_app_assoc (a b c : string) :
  ((a ++ b) ++ c)%string = (a ++ (b ++ c))%string.
Proof. induction a; simpl; congruence. Qed.

Lemma str_rfind_lt_length c s :
  (str_rfind c s < Z.of_nat (String.length s))%Z.
Proof.
  induction s as [|x r IH]; cbn [str_rfind String.length]; [lia|].
  destruct (Z.leb_spec 0 (str_rfind c r)); [lia|].
  destruct (Ascii.eqb x c); lia.
Qed.

Lemma str_rfind_append c pre s :
  str_rfind c (pre ++ s)%string =
  if (0 <=? str_rfind c s)%Z
  then (Z.of_nat (String.length pre) + str_rfind c s)%Z
  else str_rfind c pre.
Proof.
  induction pre as [|x r IH]; cbn [append str_rfind String.length].
  - destruct (Z.leb_spec 0 (str_rfind c s)); [lia|].
    pose proof (str_rfind_lower_bound c s). lia.
  - rewrite IH. destruct (Z.leb_spec 0 (str_rfind c s)).
    + destruct (Z.leb_spec 0 (Z.of_nat (String.length r) + str_rfind c s));
        lia.
    + reflexivity.
Qed.

(** The braces of a text laid out around its first opening brace and its
    last closing brace. *)
Lemma braces_found pre mid post :
  ~ occurs "{"%char pre -> ~ occurs "}"%char post ->
  embedded_json (pre ++ "{" ++ mid ++ "}" ++ post)%string =
  Some ("{" ++ mid ++ "}")%string.
Proof.
  intros Hpre Hpost. unfold embedded_json. cbn [append].
  rewrite (str_find_app "{"%char pre (mid ++ String "}"%char post))
    by assumption.
  replace (pre ++ String "{"%char (mid ++ String "}"%char post))%string
    with ((pre ++ String "{"%char mid) ++ String "}"%char post)%string
    by (rewrite !string_app_assoc; reflexivity).
  rewrite (str_rfind_app "}"%char (pre ++ String "{"%char mid) post)
    by assumption.
  rewrite !string_app_length. cbn [String.length].
  replace (_ && _) with true
    by (symmetry; apply andb_true_iff;
        split; [apply Z.geb_le | apply Z.gtb_lt]; lia).
  f_equal. unfold slice.
  rewrite Nat2Z.id.
  replace (Z.to_nat _)
    with (String.length (String "{"%char (mid ++ "}"))%string)
    by (cbn [String.length]; rewrite !string_app_length;
        cbn [String.length]; lia).
  rewrite !string_app_assoc, substring_skip.
  replace (String "{"%char mid ++ String "}"%char post)%string
    with (String "{"%char (mid ++ "}") ++ post)%string
    by (cbn [append]; rewrite !string_app_assoc; reflexivity).
  apply substring_prefix.
Qed.

(** X18.  The handler hands a text to [json.loads] exactly when the reply
    has an opening brace with a closing brace somewhere after it, and the
    text is then the part of the reply from its first opening brace to its
    last closing brace. *)
Theorem X18_embedded_text text s :
  embedded_json text = Some s <->
  exists pre mid post,
    text = (pre ++ "{" ++ mid ++ "}" ++ post)%string /\
    ~ occurs "{"%char pre /\ ~ occurs "}"%char post /\
    s = ("{" ++ mid ++ "}")%string.
Proof.
  split.
  - intros H. pose proof H as H0. unfold embedded_json in H0.
    destruct (_ && _) eqn:E; [|discriminate]. clear H0.
    apply andb_true_iff in E as [E1 E2].
    apply Z.geb_le in E1. apply Z.gtb_lt in E2.
    destruct (str_find_split _ _ E1) as (pre & rest & Htext & Hpre & Hi).
    rewrite Hi in E2. rewrite Htext in E2.
    rewrite str_rfind_append in E2. cbn [str_rfind] in E2.
    pose proof (str_rfind_lt_length "}"%char pre) as Hub.
    pose proof (str_rfind_lower_bound "}"%char rest) as Hlb.
    destruct (Z.leb_spec 0 (str_rfind "}"%char rest)) as [Hr|Hr].
    + destruct (str_rfind_split _ _ Hr) as (mid & post & Hrest & Hpost & _).
      exists pre, mid, post. subst rest.
      assert (Heq : text = (pre ++ "{" ++ mid ++ "}" ++ post)%string)
        by exact Htext.
      repeat split; auto.
      rewrite Heq, braces_found in H by assumption. now injection H.
    + exfalso. change (Ascii.eqb "{" "}") with false in E2.
      cbv iota in E2. change (0 <=? -1)%Z with false in E2.
      cbv iota in E2. lia.
  - intros (pre & mid & post & -> & Hpre & Hpost & ->).
    now apply braces_found.
Qed.

(** ** The handler: every path *)

Section HandlerMore.

Variable agent : string -> result string.
Variable json_loads : string -> result json.
Variable json_dumps : json -> string.
Variable py_repr : json -> string.

Let handler := lambda_handler agent json_loads json_dumps py_repr.
Let prompt_for' := prompt_for json_dumps py_repr.
Let server_error' := server_error json_dumps.
Let failed' := failed json_dumps.
Let answered' := answered json_dumps.

Ltac run :=
  unfold handler, lambda_handler, try_except, handler_body, bind, log,
    lift, ret;
  cbn [py_get empty_trace logged agent_calls app].

(** Reading the recommendation is parsing the embedded text, if any. *)
Lemma extract_embedded text :
  fst (extract_recommendations json_loads text empty_trace) =
  match embedded_json text with
  | Some s => json_loads s
  | None => inr fallback_recommendation
  end.
Proof.
  unfold extract_recommendations, embedded_json, lift, ret.
  now destruct (_ && _).
Qed.

Lemma accepted d :
  dict_get "action" d = Some (JStr action_name) ->
  py_ne_str (get_or (dict_get "action" d) JNull) action_name = false.
Proof. intros ->. reflexivity. Qed.


Lemma context_not_dict d ctx :
  py_ne_str (get_or (dict_get "action" d) JNull) action_name = false ->
  get_or (dict_get "context" d) (JObj []) = ctx ->
  is_dict ctx = false ->
  handler (JObj d) = (inr (server_error' (no_get ctx)),
                      failed' (JObj d) (no_get ctx) []).
Proof.
  intros Ha Hc Hd. run. unfold action_name in Ha. rewrite Ha, Hc.
  destruct ctx; try reflexivity. discriminate.
Qed.

(** Past validation, with a current alert that is not a dictionary. *)
Lemma alert_not_dict d c ca :
  py_ne_str (get_or (dict_get "action" d) JNull) action_name = false ->
  get_or (dict_get "context" d) (JObj []) = JObj c ->
  get_or (dict_get "currentAlert" c) (JObj []) = ca ->
  py_truthy ca = true -> is_dict ca = false ->
  handler (JObj d) = (inr (server_error' (no_get ca)),
                      failed' (JObj d) (no_get ca) []).
Proof.
  intros Ha Hc Hca Ht Hd. unfold handler.
  rewrite (validated _ _ _ _ d c Ha Hc), Hca, Ht.
  destruct ca; try reflexivity; discriminate.
Qed.

(** Past validation, with a current alert that is a dictionary: the agent
    is called once, and its reply decides the response. *)
Lemma alert_dict d c a :
  py_ne_str (get_or (dict_get "action" d) JNull) action_name = false ->
  get_or (dict_get "context" d) (JObj []) = JObj c ->
  get_or (dict_get "currentAlert" c) (JObj []) = JObj a ->
  a <> [] ->
  handler (JObj d) =
  match agent (prompt_for' a) with
  | inl e => (inr (server_error' e), failed' (JObj d) e [prompt_for' a])
  | inr text =>
      match
        match embedded_json text with
        | Some s => json_loads s
        | None => inr fallback_recommendation
        end
      with
      | inl e => (inr (server_error' e), failed' (JObj d) e [prompt_for' a])
      | inr v => (inr {| statusCode := 200; body := json_dumps v |},
                  answered' (JObj d) (prompt_for' a))
      end
  end.
Proof.
  intros Ha Hc Hca Hne. unfold handler.
  rewrite (validated _ _ _ _ d c Ha Hc), Hca.
  destruct a as [|x a]; [congruence|]. cbn [py_truthy].
  unfold try_except. rewrite recommend_obj. cbv zeta.
  fold prompt_for'.
  destruct (agent (prompt_for' (x :: a))) as [e|text]; [reflexivity|].
  rewrite extract_frame, extract_embedded. cbn [fst].
  destruct (match embedded_json text with Some s => _ | None => _ end);
    reflexivity.
Qed.




(** X13.  With the supported action and a context that is present but not a
    dictionary, [context_data.get] raises: the handler answers 500, not
    400, and does not call the agent. *)
Theorem X13_context_not_a_dictionary d ctx :
  dict_get "action" d = Some (JStr action_name) ->
  dict_get "context" d = Some ctx ->
  is_dict ctx = false ->
  handler (JObj d) =
  (inr (server_error json_dumps (no_get ctx)),
   failed json_dumps (JObj d) (no_get ctx) []).
Proof.
  intros Ha Hc Hd. apply context_not_dict; auto.
  - now apply accepted.
  - now rewrite Hc.
Qed.

(** X14.  A current alert that is true but not a dictionary passes the
    validation and makes the first [.get] of the prompt raise: the handler
    answers 500 and does not call the agent. *)
Theorem X14_current_alert_not_a_dictionary d c ca :
  dict_get "action" d = Some (JStr action_name) ->
  dict_get "context" d = Some (JObj c) ->
  dict_get "currentAlert" c = Some ca ->
  py_truthy ca = true ->
  is_dict ca = false ->
  handler (JObj d) =
  (inr (server_error json_dumps (no_get ca)),
   failed json_dumps (JObj d) (no_get ca) []).
Proof.
  intros Ha Hc Hca Ht Hd. apply (alert_not_dict d c ca); auto.
  - now apply accepted.
  - now rewrite Hc.
  - now rewrite Hca.
Qed.


(** X16.  When the reply embeds a text that [json.loads] accepts, the
    handler answers 200 with the serialisation of the value read, whatever
    that value is: the shape of the recommendation is not checked. *)
Theorem X16_reply_parsed_unchecked d c a text s v :
  dict_get "action" d = Some (JStr action_name) ->
  dict_get "context" d = Some (JObj c) ->
  dict_get "currentAlert" c = Some (JObj a) ->
  a <> [] ->
  agent (prompt_for json_dumps py_repr a) = inr text ->
  embedded_json text = Some s ->
  json_loads s = inr v ->
  handler (JObj d) =
  (inr {| statusCode := 200; body := json_dumps v |},
   answered json_dumps (JObj d) (prompt_for json_dumps py_repr a)).
Proof.
  intros Ha Hc Hca Hne Hag Hs Hv.
  rewrite (alert_dict d c a) by (now rewrite ?(accepted d Ha), ?Hc, ?Hca).
  unfold prompt_for'. now rewrite Hag, Hs, Hv.
Qed.

(** X17.  When the reply embeds no text to parse, the handler answers 200
    with the fixed recommendation, after one call of the agent. *)
Theorem X17_reply_without_object d c a text :
  dict_get "action" d = Some (JStr action_name) ->
  dict_get "context" d = Some (JObj c) ->
  dict_get "currentAlert" c = Some (JObj a) ->
  a <> [] ->
  agent (prompt_for json_dumps py_repr a) = inr text ->
  embedded_json text = None ->
  handler (JObj d) =
  (inr {| statusCode := 200;
          body := json_dumps fallback_recommendation |},
   answered json_dumps (JObj d) (prompt_for json_dumps py_repr a)).
Proof.
  intros Ha Hc Hca Hne Hag Hs.
  rewrite (alert_dict d c a) by (now rewrite ?(accepted d Ha), ?Hc, ?Hca).
  unfold prompt_for'. now rewrite Hag, Hs.
Qed.

(** X19.  The prompt reads seven keys of the current alert and nothing else:
    two alerts that give the same seven values, defaults included, get the
    same prompt. *)
Theorem X19_prompt_reads_seven_fields a a' :
  prompt_fields a = prompt_fields a' ->
  prompt_for json_dumps py_repr a = prompt_for json_dumps py_repr a'.
Proof.
  unfold prompt_fields. intros H.
  injection H as H1 H2 H3 H4 H5 H6 H7.
  unfold prompt_for, build_prompt, bind, lift, ret, py_get. cbn [fst].
  now rewrite H1, H2, H3, H4, H5, H6, H7.
Qed.

End HandlerMore.

(** ** The handler on further sample events *)


Lemma X13_context_not_a_dictionary_witness :
  run_scripted "unused"
    (JObj [ ("action", JStr action_name); ("context", JNull) ]) =
  (inr (server_error json_dumps_ref
          (AttributeError "'NoneType' object has no attribute 'get'")),
   failed json_dumps_ref
          (JObj [ ("action", JStr action_name); ("context", JNull) ])
          (AttributeError "'NoneType' object has no attribute 'get'") []).
Proof.
  exact (X13_context_not_a_dictionary (scripted_agent "unused")
           json_loads_ref json_dumps_ref py_repr_ref
           [ ("action", JStr action_name); ("context", JNull) ] JNull
           eq_refl eq_refl eq_refl).
Defined.

Lemma X14_current_alert_not_a_dictionary_witness :
  run_scripted "unused"
    (JObj (sample_event (sample_context (JStr "storm") (JArr [])))) =
  (inr (server_error json_dumps_ref
          (AttributeError "'str' object has no attribute 'get'")),
   failed json_dumps_ref
          (JObj (sample_event (sample_context (JStr "storm") (JArr []))))
          (AttributeError "'str' object has no attribute 'get'") []).
Proof.
  exact (X14_current_alert_not_a_dictionary (scripted_agent "unused")
           json_loads_ref json_dumps_ref py_repr_ref
           (sample_event (sample_context (JStr "storm") (JArr [])))
           (sample_context (JStr "storm") (JArr [])) (JStr "storm")
           eq_refl eq_refl eq_refl eq_refl eq_refl).
Defined.


Lemma X16_reply_parsed_unchecked_witness :
  run_scripted sample_reply
    (JObj (sample_event
             (sample_context (JObj sample_alert) sample_historical))) =
  (inr {| statusCode := 200;
          body := json_dumps_ref
                    (JObj [ ("priorityLevel", JStr "high") ]) |},
   answered json_dumps_ref
            (JObj (sample_event
                     (sample_context (JObj sample_alert)
                                     sample_historical)))
            (prompt_for json_dumps_ref py_repr_ref sample_alert)).
Proof.
  apply (X16_reply_parsed_unchecked (scripted_agent sample_reply)
           json_loads_ref json_dumps_ref py_repr_ref
           (sample_event
              (sample_context (JObj sample_alert) sample_historical))
           (sample_context (JObj sample_alert) sample_historical)
           sample_alert sample_reply
           ("{" ++ dq ++ "priorityLevel" ++ dq ++ ":" ++ dq ++ "high"
              ++ dq ++ "}")%string
           (JObj [ ("priorityLevel", JStr "high") ])).
  - reflexivity.
  - reflexivity.
  - reflexivity.
  - discriminate.
  - reflexivity.
  - reflexivity.
  - reflexivity.
Defined.

Lemma X17_reply_without_object_witness :
  run_scripted "} nothing to read {"
    (JObj (sample_event
             (sample_context (JObj sample_alert) sample_historical))) =
  (inr {| statusCode := 200;
          body := json_dumps_ref fallback_recommendation |},
   answered json_dumps_ref
            (JObj (sample_event
                     (sample_context (JObj sample_alert)
                                     sample_historical)))
            (prompt_for json_dumps_ref py_repr_ref sample_alert)).
Proof.
  apply (X17_reply_without_object (scripted_agent "} nothing to read {")
           json_loads_ref json_dumps_ref py_repr_ref
           (sample_event
              (sample_context (JObj sample_alert) sample_historical))
           (sample_context (JObj sample_alert) sample_historical)
           sample_alert "} nothing to read {").
  - reflexivity.
  - reflexivity.
  - reflexivity.
  - discriminate.
  - reflexivity.
  - reflexivity.
Defined.

Lemma X19_prompt_reads_seven_fields_witness :
  prompt_for json_dumps_ref py_repr_ref
    (sample_alert ++ [ ("startTime", JStr "2024-05-15T10:00:00Z") ]) =
  prompt_for json_dumps_ref py_repr_ref sample_alert.
Proof.
  exact (X19_prompt_reads_seven_fields json_dumps_ref py_repr_ref
           (sample_alert ++ [ ("startTime", JStr "2024-05-15T10:00:00Z") ])
           sample_alert eq_refl).
Defined.
